(** * pywebdavserver: backend configuration store and resolution dispatcher

    A shallow embedding of [src/pywebdavserver/config.py] and
    [src/pywebdavserver/cli.py].

    - Python dictionaries with string keys are [gmap string value].
    - Python exceptions are explicit: a call into a library either
      [Return]s or [Raise]s, and the command-line entry point runs in a
      small monad that records console output and ends normally, by an
      uncaught exception, or by [sys.exit].
    - The [vaultconfig] package (secret codec and configuration manager),
      the [rich] console and the storage providers are external
      libraries: they appear as interfaces (type classes and an
      environment record), never as code. *)

From Stdlib Require Import ZArith String Ascii List Bool Lia.
From Stdlib Require Import Floats.PrimFloat.
From stdpp Require Import base option list strings gmap fin_maps.

Local Open Scope string_scope.
Local Open Scope Z_scope.
Local Open Scope list_scope.

(** ** Python values *)

(** The values a backend record can hold (TOML scalars), plus [None]. *)
Inductive value :=
| VNone
| VBool (b : bool)
| VInt (n : Z)
| VFloat (f : float)
| VStr (s : string).

(** [isinstance(v, str)] *)
Definition is_str (v : value) : bool :=
  match v with VStr _ => true | _ => false end.

(** Python truthiness, as used by [if not api_key], [if username], ... *)
Definition truthy (v : value) : bool :=
  match v with
  | VNone => false
  | VBool b => b
  | VInt n => negb (n =? 0)
  | VFloat f => negb (PrimFloat.eqb f PrimFloat.zero)
  | VStr s => negb (String.eqb s "")
  end.

(** [v == s] for a value [v] and a [str] [s]: only an equal string is
    equal to a string. *)
Definition eq_str (v : value) (s : string) : bool :=
  match v with VStr s' => String.eqb s' s | _ => false end.

(** ** Exceptions *)

(** The classes the source distinguishes: [except ValueError], [except
    ImportError], and everything else below [Exception]. *)
Inductive exc_class := ValueError | ImportError | OtherException.

Record exception := Exc { exc_cls : exc_class; exc_msg : string }.

Definition is_ValueError (e : exception) : bool :=
  match exc_cls e with ValueError => true | _ => false end.

Definition is_ImportError (e : exception) : bool :=
  match exc_cls e with ImportError => true | _ => false end.

(** Outcome of a call that returns or raises. *)
Inductive result (A : Type) :=
| Return (a : A)
| Raise (e : exception).
Arguments Return {A} a.
Arguments Raise {A} e.

#[global] Instance result_ret : MRet result := fun _ a => Return a.
#[global] Instance result_bind : MBind result := fun _ _ k r =>
  match r with
  | Return a => k a
  | Raise e => Raise e
  end.

(** ** The [vaultconfig.obscure] interface *)

(** [obscure.obscure], [obscure.reveal] and [obscure.is_obscured] of the
    external [vaultconfig] package.  Nothing is assumed about them here;
    the laws a lemma needs are stated where it needs them. *)
Class Codec := {
  obscure : string -> result string;
  reveal : string -> result string;
  is_obscured : string -> bool;
}.

(** The round trip of the codec's contract: [reveal] gives back what
    [obscure] was given.  It is a hypothesis where a statement needs it. *)
Definition round_trip (C : Codec) : Prop :=
  forall s t, obscure s = Return t -> reveal t = Return s.

(** ** config.py *)

(** [("password", "api_key", "drime_password")] *)
Definition sensitive_keys : list string :=
  ["password"; "api_key"; "drime_password"].

(** [key in ("password", "api_key", "drime_password")] *)
Definition is_sensitive (key : string) : bool :=
  bool_decide (key ∈ sensitive_keys).

(** [class BackendConfig] *)
Record BackendConfig := mkBackendConfig {
  name : string;
  backend_type : value;
  _config : gmap string value;
}.

(** [class ConfigManager] of [vaultconfig], as the adapter uses it.
    [get_config m name] is [None] when [self._manager.get_config(name)] is
    falsy, and otherwise the dictionary that the entry's
    [get_all(reveal_secrets=False)] returns (a fresh dictionary on every
    call). *)
Class ConfigManager (M : Type) := {
  list_configs : M -> list string;
  get_config : M -> string -> option (gmap string value);
  has_config : M -> string -> bool;
  add_config : M -> string -> gmap string value -> result M;
  remove_config : M -> string -> result (bool * M);
}.

(** What the spec says of the store: a record that was written is the
    record that is read back. *)
Class ConfigManagerLaws `(CM : ConfigManager M) := {
  get_add_config : forall m m' n c,
    add_config m n c = Return m' -> get_config m' n = Some c;
}.

Section backend_config.
Context {C : Codec}.

(** [BackendConfig.get(key, default)] *)
Definition get (self : BackendConfig) (key : string) (dflt : value)
  : result value :=
  let value := default dflt (_config self !! key) in
  match value with
  | VStr s =>
      if is_sensitive key then
        (* try: return obscure.reveal(value)  except ValueError: return value *)
        match reveal s with
        | Return p => Return (VStr p)
        | Raise e => if is_ValueError e then Return value else Raise e
        end
      else Return value
  | _ => Return value
  end.

(** The loop of [get_all]: [for key, value in self._config.items()]. *)
Fixpoint get_all_loop (items : list (string * value))
  (res : gmap string value) : result (gmap string value) :=
  match items with
  | [] => Return res
  | (key, value) :: items' =>
      match value with
      | VStr s =>
          if is_sensitive key then
            match reveal s with
            | Return p => get_all_loop items' (<[key := VStr p]> res)
            | Raise e =>
                if is_ValueError e
                then get_all_loop items' (<[key := value]> res)
                else Raise e
            end
          else get_all_loop items' (<[key := value]> res)
      | _ => get_all_loop items' (<[key := value]> res)
      end
  end.

(** [BackendConfig.get_all()] *)
Definition get_all (self : BackendConfig) : result (gmap string value) :=
  get_all_loop (map_to_list (_config self)) ∅.

(** *** The accessors' rule, for the statements below *)

(** The rule of the accessors, as a function: a string under a sensitive
    key is replaced by what [reveal] returns, and kept when [reveal]
    raises. *)
Definition revealed (key : string) (v : value) : value :=
  match v with
  | VStr s =>
      if is_sensitive key then
        match reveal s with Return p => VStr p | Raise _ => v end
      else v
  | _ => v
  end.

(** [reveal] ends on an outcome that [get] handles: a string, or a
    [ValueError]. *)
Definition decodes_or_fails (s : string) : Prop :=
  match reveal s with
  | Return _ => True
  | Raise e => exc_cls e = ValueError
  end.

End backend_config.

Section config_manager.
Context {C : Codec} `{CM : ConfigManager M}.

(** [PyWebDAVConfigManager.list_backends] *)
Definition list_backends (self : M) : list string :=
  list_configs self.

(** [PyWebDAVConfigManager.get_backend]: [data.pop("type", "local")] takes
    the type out of the dictionary. *)
Definition get_backend (self : M) (name : string) : option BackendConfig :=
  match get_config self name with
  | None => None
  | Some data =>
      let backend_type := default (VStr "local") (data !! "type") in
      let data := delete "type" data in
      Some (mkBackendConfig name backend_type data)
  end.

(** [PyWebDAVConfigManager.has_backend] *)
Definition has_backend (self : M) (name : string) : bool :=
  has_config self name.

(** The loop of [add_backend]:
<<
    for key in ("password", "api_key", "drime_password"):
        if key in full_config and isinstance(full_config[key], str):
            if not obscure.is_obscured(full_config[key]):
                full_config[key] = obscure.obscure(full_config[key])
>>  *)
Fixpoint obscure_loop (keys : list string) (full_config : gmap string value)
  : result (gmap string value) :=
  match keys with
  | [] => Return full_config
  | key :: keys' =>
      match full_config !! key with
      | Some (VStr s) =>
          if negb (is_obscured s) then
            t ← obscure s;
            obscure_loop keys' (<[key := VStr t]> full_config)
          else obscure_loop keys' full_config
      | _ => obscure_loop keys' full_config
      end
  end.

(** The dictionary [add_backend] hands to [self._manager.add_config]:
    [{"type": backend_type, **config}], a key ["type"] of [config] winning,
    then the loop above when [obscure_passwords] is set. *)
Definition add_backend_record (backend_type : string)
  (config : gmap string value) (obscure_passwords : bool)
  : result (gmap string value) :=
  let full_config := config ∪ {[ "type" := VStr backend_type ]} in
  if obscure_passwords
  then obscure_loop sensitive_keys full_config
  else Return full_config.

(** [PyWebDAVConfigManager.add_backend] *)
Definition add_backend (self : M) (name : string) (backend_type : string)
  (config : gmap string value) (obscure_passwords : bool) : result M :=
  full_config ← add_backend_record backend_type config obscure_passwords;
  add_config self name full_config.

(** [PyWebDAVConfigManager.remove_backend] *)
Definition remove_backend (self : M) (name : string) : result (bool * M) :=
  remove_config self name.

(** The loop of [get_backend_names_by_type], with [result.append(name)]. *)
Fixpoint names_by_type_loop (self : M) (wanted : string)
  (names : list string) (res : list string) : list string :=
  match names with
  | [] => res
  | name :: names' =>
      (* if backend and backend.backend_type == backend_type *)
      let keep :=
        match get_backend self name with
        | Some backend => eq_str (backend_type backend) wanted
        | None => false
        end in
      names_by_type_loop self wanted names'
        (if keep then res ++ [name] else res)
  end.

(** [PyWebDAVConfigManager.get_backend_names_by_type(backend_type)] *)
Definition get_backend_names_by_type (self : M) (wanted : string)
  : list string :=
  names_by_type_loop self wanted (list_backends self) [].

(** *** What the store keeps, for the statements below *)

(** How [add_backend] with [obscure_passwords=True] stores the value [v]
    of a sensitive key: a string that [is_obscured] rejects is replaced by
    its token, everything else is kept. *)
Definition stored_as (v v' : option value) : Prop :=
  match v with
  | Some (VStr s) =>
      if is_obscured s then v' = Some (VStr s)
      else exists t, obscure s = Return t /\ v' = Some (VStr t)
  | _ => v' = v
  end.

(** The test of the loop of [get_backend_names_by_type]. *)
Definition has_type (self : M) (wanted : string) (name : string) : bool :=
  match get_backend self name with
  | Some backend => eq_str (backend_type backend) wanted
  | None => false
  end.

End config_manager.

(** ** cli.py *)

(** *** Console output, providers and the environment *)

(** An f-string: literal pieces and interpolated values.  Escapes such as
    [\n] are kept as the source writes them.  An interpolated piece is a
    value ([Fmt]), the name of a stored backend ([FmtName]), or the text
    of a caught exception: of a library ([FmtExc]) or of the console
    itself ([FmtMarkupError]). *)
Inductive part :=
| Lit (s : string)
| Fmt (v : value)
| FmtName (n : string)
| FmtExc (e : exception)
| FmtMarkupError (msg : string).

(** [rich] reads the text of [console.print] as markup and raises
    [MarkupError] on a closing tag that closes nothing.  The literal
    texts of [cli.py] are well-formed, so a closing tag can only come
    with an interpolated string that holds the two characters of its
    beginning. *)
Definition starts_with_slash (s : string) : bool :=
  match s with
  | String c _ => Ascii.eqb c "/"
  | EmptyString => false
  end.

Fixpoint has_closing_tag (s : string) : bool :=
  match s with
  | EmptyString => false
  | String c s' =>
      (Ascii.eqb c "[" && starts_with_slash s') || has_closing_tag s'
  end.

(** The pieces on which [rich] may raise: a string of the command line
    or of a stored record with the beginning of a closing tag, and the
    text of a [MarkupError], which quotes the tag it rejected.  A stored
    name is a file stem and holds no [/]; the text of a library's
    exception is taken as plain text; numbers, booleans and [None] hold
    no tag. *)
Definition suspect_part (p : part) : bool :=
  match p with
  | Fmt (VStr s) => has_closing_tag s
  | FmtMarkupError _ => true
  | _ => false
  end.

Definition suspect (text : list part) : bool := existsb suspect_part text.

(** The verdict of [rich] on a text: [None] when it renders, the message
    of the [MarkupError] otherwise.  It is asked about suspect texts
    only. *)
Class Rich := {
  markup_error : list part -> option string;
}.

Definition of_opt (o : option string) : value :=
  match o with Some s => VStr s | None => VNone end.

(** [DrimeClient(api_key=...)] of [pydrime]. *)
Inductive drime_client := DrimeClient (api_key : value).

(** The provider objects, by their constructor calls. *)
Inductive provider :=
| LocalStorageProvider (root_path readonly : value)
| DrimeDAVProvider (client : drime_client)
    (workspace_id readonly cache_ttl max_file_size : value).

(** The keyword arguments of [run_webdav_server]. *)
Record server_call := mkServerCall {
  sc_provider : provider;
  sc_host : string;
  sc_port : Z;
  sc_username : option string;
  sc_password : option string;
  sc_verbose : Z;
  sc_ssl_cert : option string;
  sc_ssl_key : option string;
  sc_server_name : list part;
}.

(** What the process does that is visible from outside. *)
Inductive event :=
| ConsolePrint (text : list part)
| LoggerException (msg : string)
| NewClient (c : drime_client)
| NewProvider (p : provider)
| RunWebdavServer (call : server_call).

(** What the process finds around it: [os.environ], whether the optional
    [pydrime] dependency imports, and whether the external constructors
    and the server raise ([None]: they return). *)
Record environment := {
  environ : gmap string string;
  import_pydrime : option exception;
  init_client : drime_client -> option exception;
  init_provider : provider -> option exception;
  serve : server_call -> option exception;
}.

(** [constants.py] is not part of the sources at hand; its values are
    parameters. *)
Class Constants := {
  DEFAULT_PATH : value;
  DEFAULT_CACHE_TTL : value;
  DEFAULT_MAX_FILE_SIZE : value;
}.

(** *** The monad of the entry point *)

(** How a piece of the program ends: normally, by an exception of a
    library (all of them below [Exception]), by [sys.exit] ([SystemExit]
    is not an [Exception], so [except Exception] lets it through), or by
    the [MarkupError] of a [console.print] (an [Exception] too). *)
Inductive ending (A : Type) :=
| Done (a : A)
| Raised (e : exception)
| SysExit (code : Z)
| MarkupError (msg : string).
Arguments Done {A} a.
Arguments Raised {A} e.
Arguments SysExit {A} code.
Arguments MarkupError {A} msg.

Definition proc (A : Type) : Type := list event * ending A.

#[global] Instance proc_ret : MRet proc := fun _ a => ([], Done a).
#[global] Instance proc_bind : MBind proc := fun _ _ k m =>
  match m.2 with
  | Done a => (m.1 ++ (k a).1, (k a).2)
  | Raised e => (m.1, Raised e)
  | SysExit c => (m.1, SysExit c)
  | MarkupError msg => (m.1, MarkupError msg)
  end.

Definition emit (ev : event) : proc unit := ([ev], Done tt).

(** The run [m] after the events [t]. *)
Definition prefix {A} (t : list event) (m : proc A) : proc A :=
  (t ++ m.1, m.2).

(** [console.print(text)]: the text is printed, unless [rich] raises. *)
Definition console_print `{R : Rich} (text : list part) : proc unit :=
  if suspect text then
    match markup_error text with
    | Some msg => ([], MarkupError msg)
    | None => emit (ConsolePrint text)
    end
  else emit (ConsolePrint text).
Definition logger_exception (msg : string) : proc unit :=
  emit (LoggerException msg).
Definition sys_exit {A} (code : Z) : proc A := ([], SysExit code).
Definition raise {A} (e : exception) : proc A := ([], Raised e).

(** A library call that returns or raises. *)
Definition call {A} (r : result A) : proc A :=
  match r with Return a => mret a | Raise e => raise e end.

(** A call that returns nothing or raises. *)
Definition check (o : option exception) : proc unit :=
  match o with None => mret tt | Some e => raise e end.

(** [try: body  except Exception as e: handler]; the handler gets [e]
    as the piece that [{e}] is in its texts. *)
Definition try_except {A} (body : proc A) (handler : part -> proc A)
  : proc A :=
  match body.2 with
  | Raised e => (body.1 ++ (handler (FmtExc e)).1, (handler (FmtExc e)).2)
  | MarkupError msg =>
      (body.1 ++ (handler (FmtMarkupError msg)).1,
       (handler (FmtMarkupError msg)).2)
  | _ => body
  end.

(** [try: body  except ImportError: handler] *)
Definition try_except_ImportError {A} (body : proc A) (handler : proc A)
  : proc A :=
  match body.2 with
  | Raised e =>
      if is_ImportError e then (body.1 ++ handler.1, handler.2) else body
  | _ => body
  end.

(** [for x in l: body x] *)
Fixpoint for_each {A} (l : list A) (body : A -> proc unit) : proc unit :=
  match l with
  | [] => mret tt
  | x :: l' => body x;; for_each l' body
  end.

(** *** The parsed command line *)

(** The arguments [click] passes to [cli], defaults already applied. *)
Record invocation := {
  invoked_subcommand : option string;
  backend : option string;
  path : string;
  host : string;
  port : Z;
  username : option string;
  password : option string;
  readonly : bool;
  cache_ttl : float;
  max_file_size : Z;
  workspace_id : Z;
  ssl_cert : option string;
  ssl_key : option string;
  verbose : Z;
  no_auth : bool;
}.

(** Truthiness of an [Optional[str]]. *)
Definition opt_truthy (o : option string) : bool := truthy (of_opt o).

(** [str.lower()] on the ASCII letters.  Python also maps letters
    outside ASCII, but none of them to a letter of ["local"] or
    ["drime"], so the comparisons below decide as Python does. *)
Definition lower_ascii (c : ascii) : ascii :=
  let n := N_of_ascii c in
  if ((65 <=? n) && (n <=? 90))%N then ascii_of_N (n + 32) else c.

Fixpoint lower (s : string) : string :=
  match s with
  | EmptyString => EmptyString
  | String c s' => String (lower_ascii c) (lower s')
  end.

Section cli.
Context {C : Codec} `{CM : ConfigManager M} {K : Constants} {R : Rich}.
Variable env : environment.

(** A constructor call of a provider class. *)
Definition new_provider (p : provider) : proc provider :=
  emit (NewProvider p);; check (init_provider env p);; mret p.

(** [DrimeClient(api_key=api_key)] *)
Definition new_client (c : drime_client) : proc drime_client :=
  emit (NewClient c);; check (init_client env c);; mret c.

(** The call of [run_webdav_server]. *)
Definition run_webdav_server (sc : server_call) : proc unit :=
  emit (RunWebdavServer sc);; check (serve env sc).

(** The text both paths print when the optional dependency is missing. *)
Definition pydrime_missing : list part :=
  [Lit "[red]Error: Drime backend requires pydrime to be installed.[/red]\nInstall it with: pip install 'pywebdavserver[drime]'"].

(** [# Handle authentication flags] in [cli]: the username and password
    the rest of [cli] goes on with. *)
Definition handle_authentication_flags (no_auth : bool)
  (username password : option string) : proc (option string * option string) :=
  if no_auth then mret (None, None)
  else if opt_truthy username && negb (opt_truthy password) then
    console_print [Lit "[yellow]Warning: Username provided but no password. Using anonymous access.[/yellow]"];;
    mret (None, password)
  else if negb (opt_truthy username) && opt_truthy password then
    console_print [Lit "[yellow]Warning: Password provided but no username. Using anonymous access.[/yellow]"];;
    mret (username, None)
  else mret (username, password).

(** [_start_from_config] *)
Definition _start_from_config (backend_config : BackendConfig)
  (host : string) (port : Z) (username password : option string)
  (ssl_cert ssl_key : option string) (verbose : Z) : proc unit :=
  let btype := backend_type backend_config in
  let bname := name backend_config in
  config ← call (get_all backend_config);
  '(provider, server_name) ← try_except
    (if eq_str btype "local" then
       let root_path := default DEFAULT_PATH (config !! "path") in
       let readonly := default (VBool false) (config !! "readonly") in
       console_print [Lit "[blue]Initializing local filesystem provider at: ";
                      Fmt root_path; Lit "[/blue]"];;
       provider ← new_provider (LocalStorageProvider root_path readonly);
       mret (provider,
             [Lit "PyWebDAV Server ("; Fmt (VStr bname); Lit ": ";
              Fmt root_path; Lit ")"])
     else if eq_str btype "drime" then
       try_except_ImportError (check (import_pydrime env))
         (console_print pydrime_missing;; sys_exit 1);;
       (* Get Drime configuration from config (not CLI args) *)
       let api_key := default VNone (config !! "api_key") in
       let workspace_id_config := default (VInt 0) (config !! "workspace_id") in
       let readonly := default (VBool false) (config !! "readonly") in
       let cache_ttl := default DEFAULT_CACHE_TTL (config !! "cache_ttl") in
       let max_file_size :=
         default DEFAULT_MAX_FILE_SIZE (config !! "max_file_size") in
       (if negb (truthy api_key) then
          console_print [Lit "[red]Error: Drime backend requires api_key in config.[/red]\nReconfigure with: pywebdavserver config add ";
                         FmtName bname];;
          sys_exit 1
        else mret tt);;
       console_print [Lit "[blue]Connecting to Drime Cloud (workspace: ";
                      Fmt workspace_id_config; Lit ")...[/blue]"];;
       client ← new_client (DrimeClient api_key);
       provider ← new_provider
         (DrimeDAVProvider client workspace_id_config readonly cache_ttl
            max_file_size);
       mret (provider,
             [Lit "PyWebDAV Server ("; Fmt (VStr bname); Lit ": workspace ";
              Fmt workspace_id_config; Lit ")"])
     else
       console_print [Lit "[red]Error: Unknown backend type '"; Fmt btype;
                      Lit "'[/red]"];;
       sys_exit 1)
    (fun e =>
       console_print [Lit "[red]Error initializing "; Fmt btype;
                      Lit " provider: "; e; Lit "[/red]"];;
       logger_exception "Provider initialization failed";;
       sys_exit 1);
  (* Display server info *)
  console_print [Lit "\n[bold green]Starting PyWebDAV Server[/bold green]"];;
  console_print [Lit "  Backend: [cyan]"; FmtName bname;
                 Lit "[/cyan] (type: "; Fmt btype; Lit ")"];;
  console_print [Lit "  Address: [cyan]"; Fmt (VStr host); Lit ":";
                 Fmt (VInt port); Lit "[/cyan]"];;
  (* Get readonly status from config *)
  let readonly := default (VBool false) (config !! "readonly") in
  console_print [Lit "  Mode: [cyan]";
                 Fmt (VStr (if truthy readonly then "Read-only" else "Read-write"));
                 Lit "[/cyan]"];;
  (if opt_truthy username then
     console_print [Lit "  Auth: [cyan]Enabled (user: "; Fmt (of_opt username);
                    Lit ")[/cyan]"]
   else console_print [Lit "  Auth: [yellow]Disabled (anonymous access)[/yellow]"]);;
  (if opt_truthy ssl_cert && opt_truthy ssl_key then
     console_print [Lit "  SSL: [cyan]Enabled[/cyan]"]
   else mret tt);;
  console_print [];;
  (* Start the server *)
  try_except
    (run_webdav_server
       (mkServerCall provider host port username password (verbose + 1)
          ssl_cert ssl_key server_name))
    (fun e =>
       console_print [Lit "\n[red]Error running server: "; e; Lit "[/red]"];;
       logger_exception "Server error";;
       sys_exit 1).

(** [_start_from_type] *)
Definition _start_from_type (self : M) (btype : string) (path : string)
  (host : string) (port : Z) (username password : option string)
  (readonly : bool) (cache_ttl : float) (max_file_size workspace_id : Z)
  (ssl_cert ssl_key : option string) (verbose : Z) : proc unit :=
  '(provider, server_name) ← try_except
    (if String.eqb (lower btype) "local" then
       console_print [Lit "[blue]Initializing local filesystem provider at: ";
                      Fmt (VStr path); Lit "[/blue]"];;
       provider ← new_provider (LocalStorageProvider (VStr path) (VBool readonly));
       mret (provider, [Lit "PyWebDAV Server (Local: "; Fmt (VStr path); Lit ")"])
     else if String.eqb (lower btype) "drime" then
       (* Import Drime-specific dependencies *)
       try_except_ImportError (check (import_pydrime env))
         (console_print pydrime_missing;; sys_exit 1);;
       (* Get Drime credentials from environment *)
       let api_key := environ env !! "DRIME_API_KEY" in
       (if negb (opt_truthy api_key) then
          console_print [Lit "[red]Error: Drime backend requires DRIME_API_KEY environment variable.[/red]\nSet it with:\n  export DRIME_API_KEY='your-api-key'\n\nOr configure a named backend:\n  pywebdavserver config add drime-personal"];;
          sys_exit 1
        else mret tt);;
       console_print [Lit "[blue]Connecting to Drime Cloud (workspace: ";
                      Fmt (VInt workspace_id); Lit ")...[/blue]"];;
       client ← new_client (DrimeClient (of_opt api_key));
       provider ← new_provider
         (DrimeDAVProvider client (VInt workspace_id) (VBool readonly)
            (VFloat cache_ttl) (VInt max_file_size));
       mret (provider,
             [Lit "PyWebDAV Server (Drime: workspace "; Fmt (VInt workspace_id);
              Lit ")"])
     else
       console_print [Lit "[red]Error: Unknown backend '"; Fmt (VStr btype);
                      Lit "'[/red]"];;
       console_print [Lit "\nAvailable backends: local, drime"];;
       console_print [Lit "\nOr use a configured backend:"];;
       for_each (list_backends self)
         (fun name => console_print [Lit "  - "; FmtName name]);;
       sys_exit 1)
    (fun e =>
       console_print [Lit "[red]Error initializing "; Fmt (VStr btype);
                      Lit " provider: "; e; Lit "[/red]"];;
       logger_exception "Provider initialization failed";;
       sys_exit 1);
  (* Display server info *)
  console_print [Lit "\n[bold green]Starting PyWebDAV Server[/bold green]"];;
  console_print [Lit "  Backend: [cyan]"; Fmt (VStr btype); Lit "[/cyan]"];;
  console_print [Lit "  Address: [cyan]"; Fmt (VStr host); Lit ":";
                 Fmt (VInt port); Lit "[/cyan]"];;
  console_print [Lit "  Mode: [cyan]";
                 Fmt (VStr (if readonly then "Read-only" else "Read-write"));
                 Lit "[/cyan]"];;
  (if opt_truthy username then
     console_print [Lit "  Auth: [cyan]Enabled (user: "; Fmt (of_opt username);
                    Lit ")[/cyan]"]
   else console_print [Lit "  Auth: [yellow]Disabled (anonymous access)[/yellow]"]);;
  (if opt_truthy ssl_cert && opt_truthy ssl_key then
     console_print [Lit "  SSL: [cyan]Enabled[/cyan]"]
   else mret tt);;
  console_print [];;
  (* Start the server *)
  try_except
    (run_webdav_server
       (mkServerCall provider host port username password (verbose + 1)
          ssl_cert ssl_key server_name))
    (fun e =>
       console_print [Lit "\n[red]Error running server: "; e; Lit "[/red]"];;
       logger_exception "Server error";;
       sys_exit 1).

(** What [cli] does once the authentication flags are settled:
    [# Check if backend is a named config] and the two calls. *)
Definition dispatch (self : M) (ctx : invocation) (backend : string)
  (username password : option string) : proc unit :=
  let backend_config := get_backend self backend in
  match backend_config with
  | Some backend_config =>
      (* Use configured backend: [backend] is the name of the record
         that was found *)
      console_print [Lit "[blue]Loading backend '"; FmtName backend;
                     Lit "' from config...[/blue]"];;
      _start_from_config backend_config (host ctx) (port ctx) username password
        (ssl_cert ctx) (ssl_key ctx) (verbose ctx)
  | None =>
      (* Legacy mode: backend is a type (local/drime) *)
      _start_from_type self backend (path ctx) (host ctx) (port ctx)
        username password (readonly ctx) (cache_ttl ctx) (max_file_size ctx)
        (workspace_id ctx) (ssl_cert ctx) (ssl_key ctx) (verbose ctx)
  end.

(** [cli]: the store [self] is what [get_config_manager()] returns. *)
Definition cli (self : M) (ctx : invocation) : proc unit :=
  (* If a subcommand is invoked, don't start the server *)
  if invoked_subcommand ctx is Some _ then mret tt
  else
    (* Default backend if not specified *)
    let backend := default "local" (backend ctx) in
    (* Setup logging: the level follows [verbose]; nothing of it shows in
       the events recorded here *)
    '(username, password) ←
      handle_authentication_flags (no_auth ctx) (username ctx) (password ctx);
    dispatch self ctx backend username password.

End cli.

(** *** Observations on a run, for the statements below *)

(** The providers whose constructor was called, in order. *)
Definition constructed (t : list event) : list provider :=
  omap (fun ev => match ev with NewProvider p => Some p | _ => None end) t.

(** The [DrimeClient]s that were created. *)
Definition clients (t : list event) : list drime_client :=
  omap (fun ev => match ev with NewClient c => Some c | _ => None end) t.

(** The calls of [run_webdav_server]. *)
Definition served (t : list event) : list server_call :=
  omap (fun ev => match ev with RunWebdavServer c => Some c | _ => None end) t.

(** The texts printed on the console. *)
Definition printed (t : list event) : list (list part) :=
  omap (fun ev => match ev with ConsolePrint x => Some x | _ => None end) t.

(** The same command line with another [--backend]. *)
Definition set_backend (b : option string) (ctx : invocation) : invocation :=
  {| invoked_subcommand := invoked_subcommand ctx; backend := b;
     path := path ctx; host := host ctx; port := port ctx;
     username := username ctx; password := password ctx;
     readonly := readonly ctx; cache_ttl := cache_ttl ctx;
     max_file_size := max_file_size ctx; workspace_id := workspace_id ctx;
     ssl_cert := ssl_cert ctx; ssl_key := ssl_key ctx;
     verbose := verbose ctx; no_auth := no_auth ctx |}.

(** The same command line with other values of [--path], [--readonly],
    [--cache-ttl], [--max-file-size] and [--workspace-id]. *)
Definition set_legacy_flags (path' : string) (readonly' : bool)
  (cache_ttl' : float) (max_file_size' workspace_id' : Z)
  (ctx : invocation) : invocation :=
  {| invoked_subcommand := invoked_subcommand ctx; backend := backend ctx;
     path := path'; host := host ctx; port := port ctx;
     username := username ctx; password := password ctx;
     readonly := readonly'; cache_ttl := cache_ttl';
     max_file_size := max_file_size'; workspace_id := workspace_id';
     ssl_cert := ssl_cert ctx; ssl_key := ssl_key ctx;
     verbose := verbose ctx; no_auth := no_auth ctx |}.

Section stored_record.
Context {C : Codec} {K : Constants}.

(** The value a record holds under [key], or [dflt]. *)
Definition field (bc : BackendConfig) (key : string) (dflt : value) : value :=
  default dflt (_config bc !! key).

(** The provider of a [local] record, from what the record holds. *)
Definition stored_local_provider (bc : BackendConfig) : provider :=
  LocalStorageProvider (field bc "path" DEFAULT_PATH)
    (field bc "readonly" (VBool false)).

(** The provider of a [drime] record, from what the record holds; the API
    key is the stored one, decoded. *)
Definition stored_drime_provider (bc : BackendConfig) : provider :=
  DrimeDAVProvider (DrimeClient (revealed "api_key" (field bc "api_key" VNone)))
    (field bc "workspace_id" (VInt 0)) (field bc "readonly" (VBool false))
    (field bc "cache_ttl" DEFAULT_CACHE_TTL)
    (field bc "max_file_size" DEFAULT_MAX_FILE_SIZE).

End stored_record.

(** The texts of the legacy path that the statements below name. *)
Definition drime_api_key_missing : list part :=
  [Lit "[red]Error: Drime backend requires DRIME_API_KEY environment variable.[/red]\nSet it with:\n  export DRIME_API_KEY='your-api-key'\n\nOr configure a named backend:\n  pywebdavserver config add drime-personal"].

Definition unknown_backend (btype : string) : list (list part) :=
  [[Lit "[red]Error: Unknown backend '"; Fmt (VStr btype); Lit "'[/red]"];
   [Lit "\nAvailable backends: local, drime"];
   [Lit "\nOr use a configured backend:"]].

Definition username_without_password : list part :=
  [Lit "[yellow]Warning: Username provided but no password. Using anonymous access.[/yellow]"].

Definition password_without_username : list part :=
  [Lit "[yellow]Warning: Password provided but no username. Using anonymous access.[/yellow]"].

(** ** Stand-ins for the external libraries

    The codec and the configuration manager live in [vaultconfig].  To run
    the embedding on concrete inputs, the examples below use the simplest
    implementations of the two interfaces: a codec that marks a token with
    a prefix, and a store kept as an association list. *)

Fixpoint strip_prefix (p s : string) : option string :=
  match p, s with
  | EmptyString, _ => Some s
  | String a p', String b s' =>
      if Ascii.eqb a b then strip_prefix p' s' else None
  | String _ _, EmptyString => None
  end.

Definition tag_obscure (s : string) : result string :=
  if String.eqb s "" then Raise (Exc ValueError "empty")
  else Return (String.append "enc:" s).

Definition tag_reveal (t : string) : result string :=
  match strip_prefix "enc:" t with
  | Some s =>
      if String.eqb s "" then Raise (Exc ValueError "empty") else Return s
  | None => Raise (Exc ValueError "not obscured")
  end.

Definition tag_is_obscured (t : string) : bool :=
  match tag_reveal t with Return _ => true | Raise _ => false end.

Definition tag_codec : Codec :=
  {| obscure := tag_obscure; reveal := tag_reveal;
     is_obscured := tag_is_obscured |}.

(** A store as a list of named records, the newest first. *)
Definition alist_store : Type := list (string * gmap string value).

Definition alist_get (m : alist_store) (n : string)
  : option (gmap string value) :=
  (list_to_map m : gmap string (gmap string value)) !! n.

Definition alist_remove (m : alist_store) (n : string) : alist_store :=
  filter (fun e => e.1 ≠ n) m.

Definition alist_manager : ConfigManager alist_store :=
  {| list_configs m := m.*1;
     get_config := alist_get;
     has_config m n := bool_decide (is_Some (alist_get m n));
     add_config m n c := Return ((n, c) :: alist_remove m n);
     remove_config m n :=
       Return (bool_decide (is_Some (alist_get m n)), alist_remove m n) |}.

(** A console that renders whatever it is given, and one that raises on
    every suspect text, as [rich] does on a closing tag such as [[/x]]
    that closes nothing. *)
Definition lenient_rich : Rich := {| markup_error _ := None |}.

Definition strict_rich : Rich :=
  {| markup_error _ := Some "closing tag doesn't match any open tag" |}.

(** An environment in which everything outside the program works. *)
Definition quiet_env (vars : gmap string string) : environment :=
  {| environ := vars;
     import_pydrime := None;
     init_client _ := None;
     init_provider _ := None;
     serve _ := None |}.

(** An environment without the optional [pydrime] dependency. *)
Definition no_pydrime_env (vars : gmap string string) : environment :=
  {| environ := vars;
     import_pydrime := Some (Exc ImportError "No module named 'pydrime'");
     init_client _ := None;
     init_provider _ := None;
     serve _ := None |}.

Definition test_constants : Constants :=
  {| DEFAULT_PATH := VStr "/tmp/webdav";
     DEFAULT_CACHE_TTL := VFloat 30%float;
     DEFAULT_MAX_FILE_SIZE := VInt 524288000 |}.

(** *** Example inputs *)

(** A command line with every option at a default. *)
Definition plain_invocation : invocation :=
  {| invoked_subcommand := None; backend := None; path := "/tmp/webdav";
     host := "127.0.0.1"; port := 8080; username := None; password := None;
     readonly := false; cache_ttl := 30%float; max_file_size := 524288000;
     workspace_id := 0; ssl_cert := None; ssl_key := None; verbose := 0;
     no_auth := false |}.

(** The store [{a: local, b: drime, c: local}] of the type-filter
    example. *)
Definition abc_store : alist_store :=
  [("a", {[ "type" := VStr "local" ]});
   ("b", <[ "type" := VStr "drime" ]> {[ "api_key" := VStr "enc:k3y" ]});
   ("c", {[ "type" := VStr "local" ]})].

(** A store with one read-only [local] backend, and a command line that
    asks for it on [0.0.0.0:9999] while also giving legacy flags. *)
Definition archive_store : alist_store :=
  [("archive",
    <[ "type" := VStr "local" ]>
      (<[ "path" := VStr "/srv/archive" ]> {[ "readonly" := VBool true ]}))].

Definition archive_invocation : invocation :=
  {| invoked_subcommand := None; backend := Some "archive";
     path := "/elsewhere"; host := "0.0.0.0"; port := 9999;
     username := None; password := None; readonly := false;
     cache_ttl := 30%float; max_file_size := 524288000; workspace_id := 3;
     ssl_cert := None; ssl_key := None; verbose := 0; no_auth := false |}.

(** A [drime] record with an encoded API key and a password written by
    hand. *)
Definition drime_record : BackendConfig :=
  mkBackendConfig "work" (VStr "drime")
    (<[ "api_key" := VStr "enc:k3y" ]>
       (<[ "password" := VStr "plain" ]> {[ "workspace_id" := VInt 7 ]})).

(** The same command line with other credentials. *)
Definition set_credentials (u p : option string) (ctx : invocation)
  : invocation :=
  {| invoked_subcommand := invoked_subcommand ctx; backend := backend ctx;
     path := path ctx; host := host ctx; port := port ctx;
     username := u; password := p;
     readonly := readonly ctx; cache_ttl := cache_ttl ctx;
     max_file_size := max_file_size ctx; workspace_id := workspace_id ctx;
     ssl_cert := ssl_cert ctx; ssl_key := ssl_key ctx;
     verbose := verbose ctx; no_auth := no_auth ctx |}.

(** *** An orderly run, for the statements below *)

(** What a run of one of the two start functions shows: it ends normally,
    with exit code 1, or with a [MarkupError] that [rich] raised on a
    suspect text; it creates at most one client, constructs at most one
    provider and calls the server at most once; it does not end normally
    without a call of the server; when the constructor of the provider
    raises, the server is not called and the run ends with exit code 1;
    and a call of the server comes after the one provider was constructed
    without an exception, carries the connection and the credentials
    given, and decides how the run ends. *)
Definition orderly `{R : Rich} (env : environment) (r : proc unit)
  (host : string) (port : Z) (u p cert key : option string) (verbose : Z)
  : Prop :=
  (r.2 = Done tt \/ r.2 = SysExit 1 \/
   exists text msg, suspect text = true /\ markup_error text = Some msg /\
     r.2 = MarkupError msg) /\
  (length (constructed r.1) <= 1)%nat /\
  (length (clients r.1) <= 1)%nat /\
  (length (served r.1) <= 1)%nat /\
  (served r.1 = [] -> r.2 <> Done tt) /\
  (forall P e, P ∈ constructed r.1 -> init_provider env P = Some e ->
     served r.1 = [] /\ r.2 = SysExit 1) /\
  (forall sc, sc ∈ served r.1 ->
     constructed r.1 = [sc_provider sc] /\
     init_provider env (sc_provider sc) = None /\
     sc_host sc = host /\ sc_port sc = port /\
     sc_username sc = u /\ sc_password sc = p /\
     sc_ssl_cert sc = cert /\ sc_ssl_key sc = key /\
     sc_verbose sc = verbose + 1 /\
     r.2 = match serve env sc with None => Done tt | Some _ => SysExit 1 end).

(** Strings and values that hold no beginning of a closing tag. *)
Definition plain (s : string) : Prop := has_closing_tag s = false.

Definition plain_opt (o : option string) : Prop :=
  match o with Some s => plain s | None => True end.

Definition plain_value (v : value) : Prop := suspect_part (Fmt v) = false.

(** *** More example inputs *)

(** A codec whose [reveal] fails with something other than a
    [ValueError]. *)
Definition failing_codec : Codec :=
  {| obscure := tag_obscure;
     reveal _ := Raise (Exc OtherException "codec unavailable");
     is_obscured := tag_is_obscured |}.

(** A codec whose [is_obscured] does not recognise the tokens of its own
    [obscure]. *)
Definition unmarked_codec : Codec :=
  {| obscure := tag_obscure; reveal := tag_reveal;
     is_obscured _ := false |}.


(** A store written by hand: a record without a type, one whose type is
    in capitals, one whose type is a number, and a [drime] record without
    an API key. *)
Definition odd_store : alist_store :=
  [("untyped", {[ "path" := VStr "/srv/files" ]});
   ("shouting", {[ "type" := VStr "LOCAL" ]});
   ("numbered", {[ "type" := VInt 1 ]});
   ("keyless", {[ "type" := VStr "drime" ]})].

(** What [get_all] makes of [drime_record] with the prefix codec. *)
Definition drime_record_revealed : gmap string value :=
  <[ "api_key" := VStr "k3y" ]>
    (<[ "password" := VStr "plain" ]> {[ "workspace_id" := VInt 7 ]}).


(** * Properties *)

Lemma tag_round_trip : round_trip tag_codec.
Proof.
  intros s t. simpl. unfold tag_obscure.
  destruct (String.eqb_spec s "") as [->|Hne]; [discriminate|].
  intros [= <-]. unfold tag_reveal.
  cbv [String.append strip_prefix Ascii.eqb Bool.eqb].
  destruct (String.eqb_spec s ""); congruence.
Qed.

Lemma alist_manager_laws : ConfigManagerLaws alist_manager.
Proof.
  split. simpl. intros m m' n c [= <-].
  unfold alist_get. simpl. apply lookup_insert_eq.
Qed.

(** ** [BackendConfig.get] and [get_all] *)

Section record_properties.
Context {C : Codec}.

Lemma is_sensitive_true key : key ∈ sensitive_keys -> is_sensitive key = true.
Proof. intros. unfold is_sensitive. by apply bool_decide_eq_true. Qed.

Lemma is_ValueError_true e : exc_cls e = ValueError -> is_ValueError e = true.
Proof. unfold is_ValueError. by intros ->. Qed.

Lemma get_revealed self key dflt :
  (forall s, default dflt (_config self !! key) = VStr s ->
             is_sensitive key = true -> decodes_or_fails s) ->
  get self key dflt = Return (revealed key (default dflt (_config self !! key))).
Proof.
  intros Hok. unfold get, revealed.
  destruct (default dflt (_config self !! key)) as [| | | |s]; try done.
  destruct (is_sensitive key) eqn:Hk; [|done].
  specialize (Hok s eq_refl eq_refl). unfold decodes_or_fails in Hok.
  destruct (reveal s) as [p|e]; [done|].
  by rewrite (is_ValueError_true _ Hok).
Qed.

Lemma get_all_loop_inv items res all :
  NoDup items.*1 -> get_all_loop items res = Return all ->
  forall key, all !! key =
    match (list_to_map items : gmap string value) !! key with
    | Some v => Some (revealed key v)
    | None => res !! key
    end.
Proof.
  revert res. induction items as [|[k v] items IH]; intros res Hnd Hrun key.
  - injection Hrun as <-. simpl. by rewrite lookup_empty.
  - rewrite fmap_cons in Hnd. apply NoDup_cons in Hnd as [Hk Hnd].
    assert (Hstep : get_all_loop items (<[k := revealed k v]> res) = Return all).
    { simpl in Hrun. unfold revealed.
      destruct v as [| | | |s]; try done.
      destruct (is_sensitive k); [|done].
      destruct (reveal s) as [p|e]; [done|].
      by destruct (is_ValueError e). }
    rewrite (IH _ Hnd Hstep key). simpl.
    destruct (decide (k = key)) as [->|Hne].
    + rewrite lookup_insert_eq.
      rewrite (not_elem_of_list_to_map_1 items key Hk).
      by rewrite lookup_insert_eq.
    + by rewrite !(lookup_insert_ne _ k key) by done.
Qed.

Lemma get_all_loop_returns items res :
  (forall key s, (key, VStr s) ∈ items -> is_sensitive key = true ->
                 decodes_or_fails s) ->
  exists all, get_all_loop items res = Return all.
Proof.
  revert res. induction items as [|[k v] items IH]; intros res Hok.
  - by eexists.
  - assert (Hrest : forall res', exists all, get_all_loop items res' = Return all).
    { intros res'. apply IH. intros key s Hin. apply Hok.
      by apply list_elem_of_further. }
    simpl. destruct v as [| | | |s]; try done.
    destruct (is_sensitive k) eqn:Hs; [|done].
    assert (Hd : decodes_or_fails s).
    { apply (Hok k s); [apply list_elem_of_here|done]. }
    unfold decodes_or_fails in Hd.
    destruct (reveal s) as [p|e]; [done|].
    by rewrite (is_ValueError_true _ Hd).
Qed.

Lemma get_all_inv self all :
  get_all self = Return all ->
  forall key, all !! key = revealed key <$> _config self !! key.
Proof.
  intros Hrun key.
  rewrite (get_all_loop_inv _ _ _ (NoDup_fst_map_to_list _) Hrun key).
  rewrite list_to_map_to_list, lookup_empty.
  by destruct (_config self !! key).
Qed.

Lemma get_all_revealed self :
  (forall key s, _config self !! key = Some (VStr s) ->
                 is_sensitive key = true -> decodes_or_fails s) ->
  exists all, get_all self = Return all /\
    forall key, all !! key = revealed key <$> _config self !! key.
Proof.
  intros Hok.
  destruct (get_all_loop_returns (map_to_list (_config self)) ∅) as [all Hall].
  { intros key s Hin. apply Hok. by apply elem_of_map_to_list. }
  exists all. split; [done|]. by apply get_all_inv.
Qed.

(** C4. For a key of the sensitive set whose stored value is a string,
    [get] returns what [reveal] returns when [reveal] succeeds, and the
    stored string itself when [reveal] fails with a [ValueError]; in both
    cases [get] returns and does not raise.  When every sensitive string
    of the record decodes or fails in that way, [get_all] returns a
    dictionary with the same keys, in which each sensitive string is
    replaced by the same rule and every other value is the stored one. *)
Theorem get_reveal_or_passthrough (self : BackendConfig) :
  (forall key s dflt,
      key ∈ sensitive_keys -> _config self !! key = Some (VStr s) ->
      (forall p, reveal s = Return p -> get self key dflt = Return (VStr p)) /\
      (forall e, reveal s = Raise e -> exc_cls e = ValueError ->
                 get self key dflt = Return (VStr s)) /\
      (decodes_or_fails s -> exists v, get self key dflt = Return v)) /\
  ((forall key s, key ∈ sensitive_keys -> _config self !! key = Some (VStr s) ->
                  decodes_or_fails s) ->
   exists all, get_all self = Return all /\
     (forall key s, key ∈ sensitive_keys ->
        _config self !! key = Some (VStr s) ->
        all !! key = Some (match reveal s with
                           | Return p => VStr p
                           | Raise _ => VStr s
                           end)) /\
     (forall key v, _config self !! key = Some v ->
        key ∉ sensitive_keys \/ is_str v = false -> all !! key = Some v) /\
     (forall key, _config self !! key = None -> all !! key = None)).
Proof.
  split.
  - intros key s dflt Hk Hs.
    assert (Hget : get self key dflt =
      match reveal s with
      | Return p => Return (VStr p)
      | Raise e => if is_ValueError e then Return (VStr s) else Raise e
      end).
    { unfold get. rewrite Hs. simpl. by rewrite (is_sensitive_true _ Hk). }
    repeat split.
    + intros p Hp. by rewrite Hget, Hp.
    + intros e He Hcls. by rewrite Hget, He, (is_ValueError_true _ Hcls).
    + unfold decodes_or_fails. rewrite Hget.
      destruct (reveal s) as [p|e]; [by eexists|].
      intros Hcls. rewrite (is_ValueError_true _ Hcls). by eexists.
  - intros Hok.
    destruct (get_all_revealed self) as (all & Hall & Hlk).
    { intros key s Hs Hk. apply (Hok key s); [|done].
      unfold is_sensitive in Hk. by apply bool_decide_eq_true in Hk. }
    exists all. split; [done|]. repeat split.
    + intros key s Hk Hs. rewrite Hlk, Hs. simpl.
      by rewrite (is_sensitive_true _ Hk).
    + intros key v Hv Hor. rewrite Hlk, Hv. simpl. f_equal.
      unfold revealed. destruct v as [| | | |s]; try done.
      destruct Hor as [Hk|Hstr]; [|done].
      unfold is_sensitive. by rewrite bool_decide_eq_false_2.
    + intros key Hnone. by rewrite Hlk, Hnone.
Qed.

(** C10. The rule applies to the caller's default too: for a sensitive
    key that the record does not hold and a default that is a string,
    [get] returns what [reveal] makes of the default when [reveal]
    succeeds, and the default itself when [reveal] fails with a
    [ValueError]; so a string default comes back as it was given only
    when it fails to decode (or decodes to itself). *)
Theorem get_reveals_default (self : BackendConfig) (key d : string) :
  key ∈ sensitive_keys -> _config self !! key = None ->
  (forall p, reveal d = Return p -> get self key (VStr d) = Return (VStr p)) /\
  (forall e, reveal d = Raise e -> exc_cls e = ValueError ->
             get self key (VStr d) = Return (VStr d)) /\
  (get self key (VStr d) = Return (VStr d) ->
   reveal d = Return d \/
   exists e, reveal d = Raise e /\ exc_cls e = ValueError).
Proof.
  intros Hk Hnone.
  assert (Hget : get self key (VStr d) =
    match reveal d with
    | Return p => Return (VStr p)
    | Raise e => if is_ValueError e then Return (VStr d) else Raise e
    end).
  { unfold get. rewrite Hnone. simpl. by rewrite (is_sensitive_true _ Hk). }
  repeat split.
  - intros p Hp. by rewrite Hget, Hp.
  - intros e He Hcls. by rewrite Hget, He, (is_ValueError_true _ Hcls).
  - rewrite Hget. destruct (reveal d) as [p|e].
    + intros [= ->]. by left.
    + unfold is_ValueError. destruct (exc_cls e) eqn:Hcls; try done.
      intros _. right. by exists e.
Qed.

End record_properties.

(** ** [add_backend] *)

Section store_properties.
Context {C : Codec} `{CM : ConfigManager M}.

Lemma obscure_loop_inv keys (fc fc' : gmap string value) :
  NoDup keys -> obscure_loop keys fc = Return fc' ->
  (forall key, key ∉ keys -> fc' !! key = fc !! key) /\
  (forall key, key ∈ keys -> stored_as (fc !! key) (fc' !! key)).
Proof.
  revert fc. induction keys as [|k keys IH]; intros fc Hnd Hrun.
  - injection Hrun as <-. split; [done|]. intros key Hin. by inversion Hin.
  - apply NoDup_cons in Hnd as [Hk Hnd]. simpl in Hrun.
    assert (Hcases :
      (obscure_loop keys fc = Return fc' /\ stored_as (fc !! k) (fc !! k)) \/
      (exists s t, fc !! k = Some (VStr s) /\ is_obscured s = false /\
         obscure s = Return t /\
         obscure_loop keys (<[k := VStr t]> fc) = Return fc')).
    { unfold stored_as. destruct (fc !! k) as [[| | | |s]|] eqn:Hfc; auto.
      destruct (is_obscured s) eqn:Hobs; simpl in Hrun; auto.
      destruct (obscure s) as [t|e] eqn:Ht; [|done].
      right. by exists s, t. }
    destruct Hcases as [[Hrest Hsame]|(s & t & Hfc & Hobs & Ht & Hrest)].
    + destruct (IH fc Hnd Hrest) as [Hout Hin]. split.
      * intros key Hkey. apply not_elem_of_cons in Hkey as [_ Hkey].
        by apply Hout.
      * intros key Hkey. apply elem_of_cons in Hkey as [->|Hkey]; [|by apply Hin].
        by rewrite (Hout k Hk).
    + destruct (IH _ Hnd Hrest) as [Hout Hin]. split.
      * intros key Hkey. apply not_elem_of_cons in Hkey as [Hne Hkey].
        rewrite Hout by done. by apply lookup_insert_ne.
      * intros key Hkey. apply elem_of_cons in Hkey as [->|Hkey].
        -- rewrite (Hout k Hk), lookup_insert_eq, Hfc. unfold stored_as.
           rewrite Hobs. by exists t.
        -- specialize (Hin key Hkey).
           rewrite lookup_insert_ne in Hin; [done|]. by intros ->.
Qed.

Lemma obscure_loop_returns keys (fc : gmap string value) :
  NoDup keys ->
  (forall key s, key ∈ keys -> fc !! key = Some (VStr s) ->
     is_obscured s = false -> exists t, obscure s = Return t) ->
  exists fc', obscure_loop keys fc = Return fc'.
Proof.
  revert fc. induction keys as [|k keys IH]; intros fc Hnd Hok.
  - by eexists.
  - apply NoDup_cons in Hnd as [Hk Hnd]. simpl.
    assert (Hkeep : exists fc', obscure_loop keys fc = Return fc').
    { apply IH; [done|]. intros key s Hkey. apply Hok. by right. }
    destruct (fc !! k) as [[| | | |s]|] eqn:Hfc; try done.
    destruct (is_obscured s) eqn:Hobs; [done|]. simpl.
    destruct (Hok k s) as [t Ht]; [by left|done|done|]. rewrite Ht. simpl.
    apply IH; [done|]. intros key s' Hkey Hlk.
    rewrite lookup_insert_ne in Hlk by (intros ->; done).
    apply (Hok key s'); [by right|done].
Qed.

Lemma NoDup_sensitive_keys : NoDup sensitive_keys.
Proof. apply (bool_decide_unpack _). by vm_compute. Qed.

Lemma sensitive_not_type key : key ∈ sensitive_keys -> key ≠ "type".
Proof.
  intros Hin ->. unfold sensitive_keys in Hin.
  rewrite !elem_of_cons, elem_of_nil in Hin.
  by destruct Hin as [|[|[|]]].
Qed.

Lemma lookup_with_type (config : gmap string value) ty key :
  key ≠ "type" -> (config ∪ {[ "type" := VStr ty ]}) !! key = config !! key.
Proof.
  intros Hne. rewrite lookup_union, lookup_singleton_ne by done.
  by destruct (config !! key).
Qed.

Lemma add_backend_record_inv ty config fc :
  add_backend_record ty config true = Return fc ->
  forall key, key ∈ sensitive_keys -> stored_as (config !! key) (fc !! key).
Proof.
  unfold add_backend_record. intros Hrun key Hkey.
  destruct (obscure_loop_inv _ _ _ NoDup_sensitive_keys Hrun) as [_ Hin].
  specialize (Hin key Hkey).
  by rewrite lookup_with_type in Hin by by apply sensitive_not_type.
Qed.

Lemma get_backend_after_add `{!ConfigManagerLaws CM} self name fc self' :
  add_config self name fc = Return self' ->
  get_backend self' name =
    Some (mkBackendConfig name (default (VStr "local") (fc !! "type"))
            (delete "type" fc)).
Proof.
  intros Hadd. unfold get_backend. by rewrite (get_add_config _ _ _ _ Hadd).
Qed.

(** C3, as the code has it.  With [obscure_passwords=True],
    [add_backend] stores under each sensitive key: the token of a string
    that [is_obscured] rejects, and a string that [is_obscured] accepts
    as it is; it returns whenever [obscure] does.  Hence, on a store that
    reads back what was written, adding a backend twice with the same
    secret leaves: the secret itself, not encoded, when [is_obscured]
    accepts it; and otherwise its token, which [reveal] maps back to the
    secret when [reveal] inverts [obscure].  Saving the stored value
    again keeps it when [is_obscured] accepts it and encodes it once more
    when it does not. *)
Theorem add_backend_obscures_once (ty : string)
  (config : gmap string value) :
  ((forall key s, key ∈ sensitive_keys -> config !! key = Some (VStr s) ->
      is_obscured s = false -> exists t, obscure s = Return t) ->
   exists fc, add_backend_record ty config true = Return fc /\
     (forall self name,
        add_backend self name ty config true = add_config self name fc) /\
     (forall key s, key ∈ sensitive_keys -> config !! key = Some (VStr s) ->
        if is_obscured s then fc !! key = Some (VStr s)
        else exists t, obscure s = Return t /\ fc !! key = Some (VStr t))) /\
  (ConfigManagerLaws CM ->
   forall self name key p m1 m2,
     key ∈ sensitive_keys -> config !! key = Some (VStr p) ->
     add_backend self name ty config true = Return m1 ->
     add_backend m1 name ty config true = Return m2 ->
     exists b, get_backend m2 name = Some b /\
       (is_obscured p = true -> _config b !! key = Some (VStr p)) /\
       (is_obscured p = false ->
        exists t, obscure p = Return t /\ _config b !! key = Some (VStr t) /\
          (round_trip C -> reveal t = Return p)) /\
       forall m3, add_backend m2 name ty (_config b) true = Return m3 ->
         exists b', get_backend m3 name = Some b' /\
           stored_as (_config b !! key) (_config b' !! key)).
Proof.
  split.
  - intros Hok.
    destruct (obscure_loop_returns sensitive_keys
                (config ∪ {[ "type" := VStr ty ]}) NoDup_sensitive_keys)
      as [fc Hfc].
    { intros key s Hkey Hlk.
      rewrite lookup_with_type in Hlk by by apply sensitive_not_type.
      by apply (Hok key). }
    exists fc. split; [done|]. split.
    + intros self name. unfold add_backend.
      change (add_backend_record ty config true) with
        (obscure_loop sensitive_keys (config ∪ {[ "type" := VStr ty ]})).
      by rewrite Hfc.
    + intros key s Hkey Hlk.
      pose proof (add_backend_record_inv ty config fc Hfc key Hkey) as Hst.
      by rewrite Hlk in Hst.
  - intros Hlaws self name key p m1 m2 Hkey Hp _ Hsecond.
    unfold add_backend in Hsecond.
    destruct (add_backend_record ty config true) as [fc|e] eqn:Hfc; [|done].
    simpl in Hsecond.
    pose proof (add_backend_record_inv ty config fc Hfc key Hkey) as Hst.
    rewrite Hp in Hst. simpl in Hst.
    pose proof (sensitive_not_type key Hkey) as Hne.
    eexists. split; [by apply (get_backend_after_add m1)|]. simpl.
    rewrite lookup_delete_ne by done.
    split; [|split].
    + intros Hobs. by rewrite Hobs in Hst.
    + intros Hplain. rewrite Hplain in Hst. destruct Hst as (t & Ht & Hstored).
      exists t. split; [done|]. split; [done|]. intros Hrt. by apply Hrt.
    + intros m3 Hthird. unfold add_backend in Hthird.
      destruct (add_backend_record ty (delete "type" fc) true)
        as [fc3|e] eqn:Hfc3; [|done].
      simpl in Hthird.
      pose proof (add_backend_record_inv _ _ _ Hfc3 key Hkey) as Hst3.
      rewrite lookup_delete_ne in Hst3 by done.
      eexists. split; [by apply (get_backend_after_add m2)|]. simpl.
      by rewrite lookup_delete_ne.
Qed.

(** ** [get_backend_names_by_type] *)

Lemma names_by_type_loop_filter self wanted names res :
  names_by_type_loop self wanted names res =
  res ++ List.filter (has_type self wanted) names.
Proof.
  revert res. induction names as [|n names IH]; intros res; simpl.
  - by rewrite app_nil_r.
  - rewrite IH. fold (has_type self wanted n).
    destruct (has_type self wanted n); [|done].
    by rewrite <- app_assoc.
Qed.

Lemma sublist_List_filter {A} (f : A -> bool) l : sublist (List.filter f l) l.
Proof.
  induction l as [|x l IH]; simpl; [constructor|].
  destruct (f x); by constructor.
Qed.

(** C8. [get_backend_names_by_type(t)] is the list of [list_backends]
    with the names removed whose record does not load or has a type other
    than [t]: the names kept are exactly those whose record has type [t],
    each as often and in the order in which [list_backends] returns
    them. *)
Theorem names_by_type_exact (self : M) (wanted : string) :
  get_backend_names_by_type self wanted =
    List.filter (has_type self wanted) (list_backends self) /\
  sublist (get_backend_names_by_type self wanted) (list_backends self) /\
  (forall n, n ∈ get_backend_names_by_type self wanted <->
     n ∈ list_backends self /\
     exists b, get_backend self n = Some b /\ backend_type b = VStr wanted) /\
  (forall n, get_backend self n = None ->
     n ∉ get_backend_names_by_type self wanted).
Proof.
  assert (Heq : get_backend_names_by_type self wanted =
                List.filter (has_type self wanted) (list_backends self)).
  { unfold get_backend_names_by_type. by rewrite names_by_type_loop_filter. }
  assert (Hmem : forall n, n ∈ get_backend_names_by_type self wanted <->
     n ∈ list_backends self /\
     exists b, get_backend self n = Some b /\ backend_type b = VStr wanted).
  { intros n. rewrite Heq, !list_elem_of_In, filter_In. unfold has_type.
    split.
    - intros [Hin Hty]. split; [done|].
      destruct (get_backend self n) as [b|]; [|done].
      exists b. split; [done|]. unfold eq_str in Hty.
      destruct (backend_type b) as [| | | |s]; try done.
      by apply String.eqb_eq in Hty as ->.
    - intros [Hin (b & -> & Hty)]. split; [done|].
      rewrite Hty. simpl. apply String.eqb_refl. }
  split; [done|]. split; [rewrite Heq; apply sublist_List_filter|].
  split; [done|].
  intros n Hnone Hin. apply Hmem in Hin as [_ (b & Hb & _)]. congruence.
Qed.

End store_properties.


(** ** The console and the steps of a run *)

Section run_properties.
Context {R : Rich}.

(** *** The console *)

Lemma console_print_safe text :
  suspect text = false -> console_print text = ([ConsolePrint text], Done tt).
Proof. unfold console_print. by intros ->. Qed.

Lemma console_print_renders text :
  markup_error text = None ->
  console_print text = ([ConsolePrint text], Done tt).
Proof. unfold console_print. intros ->. by destruct (suspect text). Qed.

Lemma console_print_raises text msg :
  suspect text = true -> markup_error text = Some msg ->
  console_print text = ([], MarkupError msg).
Proof. unfold console_print. by intros -> ->. Qed.

Lemma console_print_cases text :
  console_print text = ([ConsolePrint text], Done tt) \/
  exists msg, suspect text = true /\ markup_error text = Some msg /\
    console_print text = ([], MarkupError msg).
Proof.
  unfold console_print.
  destruct (suspect text); [|by left].
  destruct (markup_error text) as [msg|]; [|by left].
  right. by exists msg.
Qed.

Lemma ascii_lower_bracket c : Ascii.eqb (lower_ascii c) "[" = Ascii.eqb c "[".
Proof.
  destruct c as [[] [] [] [] [] [] [] []]; reflexivity.
Qed.

Lemma ascii_lower_slash c : Ascii.eqb (lower_ascii c) "/" = Ascii.eqb c "/".
Proof.
  destruct c as [[] [] [] [] [] [] [] []]; reflexivity.
Qed.

(** Lower case changes no bracket and no slash. *)
Lemma has_closing_tag_lower s : has_closing_tag (lower s) = has_closing_tag s.
Proof.
  induction s as [|c s IH]; [done|].
  cbn [lower has_closing_tag]. rewrite IH, ascii_lower_bracket.
  f_equal. f_equal. destruct s as [|d s]; [done|].
  cbn [lower starts_with_slash]. apply ascii_lower_slash.
Qed.

Lemma plain_of_lower s t :
  lower s = t -> has_closing_tag t = false -> has_closing_tag s = false.
Proof. intros <-. by rewrite has_closing_tag_lower. Qed.

Lemma mode_plain (b : bool) :
  has_closing_tag (if b then "Read-only" else "Read-write") = false.
Proof. by destruct b. Qed.

(** *** Running a program step by step *)

Lemma bind_Done {A B} (m : proc A) (k : A -> proc B) a :
  m.2 = Done a -> m ≫= k = (m.1 ++ (k a).1, (k a).2).
Proof. intros Hm. unfold mbind, proc_bind. by rewrite Hm. Qed.

Lemma bind_prefix {A B} t (m : proc A) (k : A -> proc B) :
  prefix t m ≫= k = prefix t (m ≫= k).
Proof.
  destruct m as [tm [a|e|c|msg]]; unfold prefix, mbind, proc_bind; simpl;
    by rewrite ?app_assoc.
Qed.

Lemma prefix_pair {A} t t' (e : ending A) : prefix t (t', e) = (t ++ t', e).
Proof. done. Qed.

Lemma bind_pair_Done {A B} t (a : A) (k : A -> proc B) :
  (t, Done a) ≫= k = prefix t (k a).
Proof. done. Qed.

Lemma bind_pair_Raised {A B} t e (k : A -> proc B) :
  (t, Raised e) ≫= k = (t, Raised e).
Proof. done. Qed.

Lemma bind_pair_SysExit {A B} t c (k : A -> proc B) :
  (t, SysExit c) ≫= k = (t, SysExit c).
Proof. done. Qed.

Lemma bind_pair_MarkupError {A B} t msg (k : A -> proc B) :
  (t, MarkupError msg) ≫= k = (t, MarkupError msg).
Proof. done. Qed.

Lemma try_prefix {A} t (b : proc A) h :
  try_except (prefix t b) h = prefix t (try_except b h).
Proof.
  destruct b as [tb [a|e|c|msg]]; unfold prefix, try_except; simpl;
    by rewrite ?app_assoc.
Qed.

Lemma try_pair_Done {A} t (a : A) h : try_except (t, Done a) h = (t, Done a).
Proof. done. Qed.

Lemma try_pair_SysExit {A} t c (h : part -> proc A) :
  try_except (t, SysExit c) h = (t, SysExit c).
Proof. done. Qed.

Lemma try_pair_Raised {A} t e (h : part -> proc A) :
  try_except (t, Raised e) h = prefix t (h (FmtExc e)).
Proof. done. Qed.

Lemma try_pair_MarkupError {A} t msg (h : part -> proc A) :
  try_except (t, MarkupError msg) h = prefix t (h (FmtMarkupError msg)).
Proof. done. Qed.

Lemma tryI_prefix {A} t (b : proc A) h :
  try_except_ImportError (prefix t b) h =
  prefix t (try_except_ImportError b h).
Proof.
  destruct b as [tb [a|e|c|msg]]; unfold prefix, try_except_ImportError;
    simpl; try done.
  destruct (is_ImportError e); simpl; by rewrite ?app_assoc.
Qed.

Lemma tryI_pair_Done {A} t (a : A) h :
  try_except_ImportError (t, Done a) h = (t, Done a).
Proof. done. Qed.

Lemma tryI_pair_SysExit {A} t c (h : proc A) :
  try_except_ImportError (t, SysExit c) h = (t, SysExit c).
Proof. done. Qed.

Lemma tryI_pair_MarkupError {A} t msg (h : proc A) :
  try_except_ImportError (t, MarkupError msg) h = (t, MarkupError msg).
Proof. done. Qed.

Lemma tryI_pair_Raised {A} t e (h : proc A) :
  try_except_ImportError (t, Raised e) h =
  if is_ImportError e then prefix t h else (t, Raised e).
Proof. unfold try_except_ImportError, prefix. simpl. by destruct (is_ImportError e). Qed.

Lemma for_each_print {A} (l : list A) (f : A -> list part) :
  (forall x, suspect (f x) = false) ->
  for_each l (fun x => console_print (f x)) =
  (map (fun x => ConsolePrint (f x)) l, Done tt).
Proof.
  intros Hf. induction l as [|x l IH]; [done|].
  simpl. rewrite IH, (console_print_safe _ (Hf x)). done.
Qed.

Lemma for_each_names (l : list string) :
  for_each l (fun n => console_print [Lit "  - "; FmtName n]) =
  (map (fun n => ConsolePrint [Lit "  - "; FmtName n]) l, Done tt).
Proof. by apply (for_each_print l (fun n => [Lit "  - "; FmtName n])). Qed.

End run_properties.

(** Whether a text is suspect, from what is known of the strings it
    interpolates. *)
Ltac safe :=
  unfold suspect; cbn [existsb];
  repeat match goal with
    | H : suspect_part ?p = _ |- context [suspect_part ?p] => rewrite H
    end;
  cbn [suspect_part of_opt orb];
  rewrite ?mode_plain;
  repeat match goal with
    | H : has_closing_tag ?s = _ |- context [has_closing_tag ?s] => rewrite H
    end;
  reflexivity.

(** A leaf in which [rich] raised on a text that is not suspect. *)
Ltac contra :=
  match goal with
  | Hs : suspect ?t = true |- _ =>
      let Hn := fresh in
      assert (suspect t = false) as Hn by safe;
      rewrite Hn in Hs; discriminate Hs
  | Hs : markup_error ?t = Some _, Hn : markup_error ?t = None |- _ =>
      rewrite Hn in Hs; discriminate Hs
  end.

(** Decide a condition: by what is known, or by cases. *)
Ltac decide_on Hr c :=
  lazymatch c with
  | negb ?c' => decide_on Hr c'
  | andb ?a _ => decide_on Hr a
  | _ =>
      first
        [ match goal with H : c = _ |- _ => rewrite H in Hr end
        | let H := fresh "Hc" in destruct c eqn:H; rewrite ?H in Hr ]
  end.

Ltac print_step Hr t :=
  first
    [ match goal with
      | H : console_print t = _ |- _ => rewrite H in Hr
      end
    | rewrite (console_print_safe t) in Hr by safe
    | match goal with
      | H : markup_error t = None |- _ =>
          rewrite (console_print_renders t H) in Hr
      | H : markup_error t = Some ?m |- _ =>
          rewrite (console_print_raises t m) in Hr by (safe || exact H)
      end
    | let H := fresh "Hprint" in
      let msg := fresh "msg" in
      let Hs := fresh "Hsuspect" in
      let Hm := fresh "Hmarkup" in
      destruct (console_print_cases t) as [H|(msg & Hs & Hm & H)];
      rewrite H in Hr ].

Ltac step_at Hr E :=
  lazymatch E with
  | prefix ?t ?m =>
      lazymatch m with
      | (?t', ?e) => rewrite (prefix_pair t t' e) in Hr
      | _ => step_at Hr m
      end
  | mbind ?k ?m =>
      lazymatch m with
      | prefix ?t ?m' => rewrite (bind_prefix t m' k) in Hr
      | (?t, Done ?a) => rewrite (bind_pair_Done t a k) in Hr
      | (?t, Raised ?e) => rewrite (bind_pair_Raised t e k) in Hr
      | (?t, SysExit ?c) => rewrite (bind_pair_SysExit t c k) in Hr
      | (?t, MarkupError ?msg) => rewrite (bind_pair_MarkupError t msg k) in Hr
      | _ => step_at Hr m
      end
  | try_except ?b ?h =>
      lazymatch b with
      | prefix ?t ?b' => rewrite (try_prefix t b' h) in Hr
      | (?t, Done ?a) => rewrite (try_pair_Done t a h) in Hr
      | (?t, Raised ?e) => rewrite (try_pair_Raised t e h) in Hr
      | (?t, SysExit ?c) => rewrite (try_pair_SysExit t c h) in Hr
      | (?t, MarkupError ?msg) => rewrite (try_pair_MarkupError t msg h) in Hr
      | _ => step_at Hr b
      end
  | try_except_ImportError ?b ?h =>
      lazymatch b with
      | prefix ?t ?b' => rewrite (tryI_prefix t b' h) in Hr
      | (?t, Done ?a) => rewrite (tryI_pair_Done t a h) in Hr
      | (?t, Raised ?e) => rewrite (tryI_pair_Raised t e h) in Hr
      | (?t, SysExit ?c) => rewrite (tryI_pair_SysExit t c h) in Hr
      | (?t, MarkupError ?msg) =>
          rewrite (tryI_pair_MarkupError t msg h) in Hr
      | _ => step_at Hr b
      end
  | console_print ?t => print_step Hr t
  | for_each ?l _ => rewrite (for_each_names l) in Hr
  | call _ => unfold call in Hr
  | check _ => unfold check in Hr
  | new_provider _ _ => unfold new_provider in Hr
  | new_client _ _ => unfold new_client in Hr
  | run_webdav_server _ _ => unfold run_webdav_server in Hr
  | logger_exception _ => unfold logger_exception in Hr
  | emit _ => unfold emit in Hr
  | sys_exit _ => unfold sys_exit in Hr
  | raise _ => unfold raise in Hr
  | mret _ => unfold mret, proc_ret in Hr
  | match ?c with _ => _ end => decide_on Hr c; cbn [negb andb] in Hr
  end.

Ltac step Hr :=
  lazymatch type of Hr with
  | _ = ?E => step_at Hr E
  end;
  cbv beta iota zeta in Hr.

(** Run to the end, on every path. *)
Ltac exec Hr :=
  cbv beta iota zeta in Hr;
  repeat step Hr;
  cbn [app] in Hr.


(** ** The entry point *)

Section cli_properties.
Context {C : Codec} `{CM : ConfigManager M} {K : Constants} {R : Rich}.
Variable env : environment.

(** The observations at the end of a run. *)
Ltac observe :=
  cbn [fst snd constructed clients served printed omap list_omap length
       sc_provider sc_host sc_port sc_username sc_password sc_ssl_cert
       sc_ssl_key sc_verbose sc_server_name] in *.

Ltac members :=
  repeat match goal with
    | H : _ ∈ [] |- _ => by apply elem_of_nil in H
    | H : _ ∈ [_] |- _ => apply list_elem_of_singleton in H; subst
    end.

(** The authentication flags never stop the program, and print at most
    warnings. *)
Lemma auth_eq no_auth u p :
  handle_authentication_flags no_auth u p =
    if no_auth then ([], Done (None, None))
    else if opt_truthy u && negb (opt_truthy p) then
      ([ConsolePrint username_without_password], Done (None, p))
    else if negb (opt_truthy u) && opt_truthy p then
      ([ConsolePrint password_without_username], Done (u, None))
    else ([], Done (u, p)).
Proof.
  unfold handle_authentication_flags.
  destruct no_auth, (opt_truthy u), (opt_truthy p); reflexivity.
Qed.

Lemma auth_ends_Done no_auth u p :
  exists up, (handle_authentication_flags no_auth u p).2 = Done up.
Proof.
  rewrite auth_eq.
  destruct no_auth; [by eexists|].
  destruct (opt_truthy u), (opt_truthy p); by eexists.
Qed.

Lemma auth_only_prints no_auth u p :
  let t := (handle_authentication_flags no_auth u p).1 in
  constructed t = [] /\ clients t = [] /\ served t = [].
Proof.
  rewrite auth_eq.
  destruct no_auth; [done|].
  by destruct (opt_truthy u), (opt_truthy p).
Qed.

Lemma auth_plain no_auth u p u' p' :
  (handle_authentication_flags no_auth u p).2 = Done (u', p') ->
  plain_opt u -> plain_opt u'.
Proof.
  rewrite auth_eq.
  destruct no_auth; [by intros [= <- <-]|].
  destruct (opt_truthy u), (opt_truthy p); simpl; by intros [= <- <-].
Qed.

Lemma cli_dispatch self ctx u p :
  invoked_subcommand ctx = None ->
  (handle_authentication_flags (no_auth ctx) (username ctx) (password ctx)).2
    = Done (u, p) ->
  cli env self ctx =
    let auth :=
      handle_authentication_flags (no_auth ctx) (username ctx) (password ctx) in
    let d := dispatch env self ctx (default "local" (backend ctx)) u p in
    (auth.1 ++ d.1, d.2).
Proof.
  intros Hsub Hauth. unfold cli. rewrite Hsub.
  by rewrite (bind_Done _ _ _ Hauth).
Qed.

Lemma cli_named self ctx bc u p :
  invoked_subcommand ctx = None ->
  (handle_authentication_flags (no_auth ctx) (username ctx) (password ctx)).2
    = Done (u, p) ->
  get_backend self (default "local" (backend ctx)) = Some bc ->
  let auth :=
    handle_authentication_flags (no_auth ctx) (username ctx) (password ctx) in
  let r := _start_from_config env bc (host ctx) (port ctx) u p (ssl_cert ctx)
             (ssl_key ctx) (verbose ctx) in
  cli env self ctx =
    (auth.1 ++
     ConsolePrint [Lit "[blue]Loading backend '";
                   FmtName (default "local" (backend ctx));
                   Lit "' from config...[/blue]"] :: r.1, r.2).
Proof.
  intros Hsub Hauth Hget. rewrite (cli_dispatch _ _ _ _ Hsub Hauth).
  unfold dispatch. rewrite Hget.
  by rewrite console_print_safe.
Qed.

Lemma cli_legacy self ctx u p :
  invoked_subcommand ctx = None ->
  (handle_authentication_flags (no_auth ctx) (username ctx) (password ctx)).2
    = Done (u, p) ->
  get_backend self (default "local" (backend ctx)) = None ->
  let auth :=
    handle_authentication_flags (no_auth ctx) (username ctx) (password ctx) in
  let r := _start_from_type env self (default "local" (backend ctx))
             (path ctx) (host ctx) (port ctx) u p (readonly ctx)
             (cache_ttl ctx) (max_file_size ctx) (workspace_id ctx)
             (ssl_cert ctx) (ssl_key ctx) (verbose ctx) in
  cli env self ctx = (auth.1 ++ r.1, r.2).
Proof.
  intros Hsub Hauth Hget. rewrite (cli_dispatch _ _ _ _ Hsub Hauth).
  unfold dispatch. by rewrite Hget.
Qed.

Lemma constructed_after_auth no_auth u p t :
  constructed ((handle_authentication_flags no_auth u p).1 ++ t) =
  constructed t.
Proof.
  unfold constructed. rewrite omap_app.
  destruct (auth_only_prints no_auth u p) as (Hc & _ & _).
  unfold constructed in Hc. by rewrite Hc.
Qed.

Lemma clients_after_auth no_auth u p t :
  clients ((handle_authentication_flags no_auth u p).1 ++ t) = clients t.
Proof.
  unfold clients. rewrite omap_app.
  destruct (auth_only_prints no_auth u p) as (_ & Hc & _).
  unfold clients in Hc. by rewrite Hc.
Qed.

Lemma served_after_auth no_auth u p t :
  served ((handle_authentication_flags no_auth u p).1 ++ t) = served t.
Proof.
  unfold served. rewrite omap_app.
  destruct (auth_only_prints no_auth u p) as (_ & _ & Hc).
  unfold served in Hc. by rewrite Hc.
Qed.

(** *** The legacy path *)

Lemma start_from_type_unknown self b path host port u p readonly ttl mfs ws
  cert key verbose :
  lower b ≠ "local" -> lower b ≠ "drime" ->
  let r := _start_from_type env self b path host port u p readonly ttl mfs
             ws cert key verbose in
  let unknown :=
    [Lit "[red]Error: Unknown backend '"; Fmt (VStr b); Lit "'[/red]"] in
  let failed msg :=
    [Lit "[red]Error initializing "; Fmt (VStr b); Lit " provider: ";
     FmtMarkupError msg; Lit "[/red]"] in
  (plain b \/ markup_error unknown = None ->
   r = (map ConsolePrint
          (unknown_backend b ++
           map (fun n => [Lit "  - "; FmtName n]) (list_backends self)),
        SysExit 1)) /\
  (forall msg, has_closing_tag b = true -> markup_error unknown = Some msg ->
     r = match markup_error (failed msg) with
         | Some msg' => ([], MarkupError msg')
         | None => ([ConsolePrint (failed msg);
                     LoggerException "Provider initialization failed"],
                    SysExit 1)
         end).
Proof.
  intros Hlocal Hdrime r unknown failed.
  apply String.eqb_neq in Hlocal, Hdrime.
  remember r as r' eqn:Hr. subst r unknown failed.
  unfold _start_from_type in Hr. rewrite Hlocal, Hdrime in Hr.
  split.
  - intros [Hplain|Hrenders]; [unfold plain in Hplain|]; exec Hr.
    all: rewrite Hr, ?app_nil_r, map_app, map_map; done.
  - intros msg Hb Hraises.
    destruct (markup_error _) as [msg'|] eqn:Hfailed in |- *; by exec Hr.
Qed.

(** C7, as the code has it.  A requested identifier that the store does
    not hold and whose lower-case form is neither ["local"] nor ["drime"]
    is written into the markup of the first error line as it is.  When it
    holds no closing tag, or [rich] renders the line, the program prints
    the unknown identifier, the built-in types [local, drime] and one
    line for each name of [list_backends], and ends with exit code 1.
    When [rich] raises on the line, nothing of this is printed: the
    handler of the [try] block prints its own line, which quotes the
    message of [rich], and the program ends with the [MarkupError] of
    that second line, or with exit code 1 after it if [rich] renders
    it. *)
Theorem unknown_type_is_fatal (self : M) (ctx : invocation) :
  let b := default "local" (backend ctx) in
  invoked_subcommand ctx = None ->
  get_backend self b = None ->
  lower b ≠ "local" -> lower b ≠ "drime" ->
  let auth :=
    handle_authentication_flags (no_auth ctx) (username ctx) (password ctx) in
  let unknown :=
    [Lit "[red]Error: Unknown backend '"; Fmt (VStr b); Lit "'[/red]"] in
  let failed msg :=
    [Lit "[red]Error initializing "; Fmt (VStr b); Lit " provider: ";
     FmtMarkupError msg; Lit "[/red]"] in
  (plain b \/ markup_error unknown = None ->
   cli env self ctx =
     (auth.1 ++ map ConsolePrint
        (unknown_backend b ++
         map (fun n => [Lit "  - "; FmtName n]) (list_backends self)),
      SysExit 1)) /\
  (forall msg, has_closing_tag b = true -> markup_error unknown = Some msg ->
     cli env self ctx =
       match markup_error (failed msg) with
       | Some msg' => (auth.1, MarkupError msg')
       | None =>
           (auth.1 ++ [ConsolePrint (failed msg);
                       LoggerException "Provider initialization failed"],
            SysExit 1)
       end).
Proof.
  intros b Hsub Hnone Hlocal Hdrime auth unknown failed.
  destruct (auth_ends_Done (no_auth ctx) (username ctx) (password ctx))
    as [[u p] Hauth].
  rewrite (cli_legacy _ _ _ _ Hsub Hauth Hnone). fold b auth.
  destruct (start_from_type_unknown self b (path ctx) (host ctx) (port ctx)
              u p (readonly ctx) (cache_ttl ctx) (max_file_size ctx)
              (workspace_id ctx) (ssl_cert ctx) (ssl_key ctx) (verbose ctx)
              Hlocal Hdrime) as [Hhint Hraises].
  cbv zeta in Hhint, Hraises. split.
  - intros Hb. by rewrite (Hhint Hb).
  - intros msg Hb Hmsg. rewrite (Hraises msg Hb Hmsg).
    subst failed. cbv beta.
    destruct (markup_error [_; _; _; _; _]); [|done].
    cbn [fst snd]. by rewrite app_nil_r.
Qed.

(** C5, as the code has it.  With [no_auth] unset, when exactly one of
    username and password is a non-empty string, the non-empty one is set
    to [None] and the other is left as it was, so that neither is a
    non-empty string afterwards (both are [None] when the other one was
    omitted); one warning is printed and [cli] goes on to dispatch with
    these credentials.  With [no_auth] set, both are [None] whatever was
    given, and nothing is printed. *)
Theorem partial_credentials_downgrade (self : M) (ctx : invocation) :
  invoked_subcommand ctx = None ->
  let b := default "local" (backend ctx) in
  (no_auth ctx = false ->
   opt_truthy (username ctx) ≠ opt_truthy (password ctx) ->
   exists warning u p,
     handle_authentication_flags false (username ctx) (password ctx) =
       ([ConsolePrint warning], Done (u, p)) /\
     warning ∈ [username_without_password; password_without_username] /\
     (if opt_truthy (username ctx) then u = None /\ p = password ctx
      else u = username ctx /\ p = None) /\
     opt_truthy u = false /\ opt_truthy p = false /\
     (username ctx = None \/ password ctx = None -> u = None /\ p = None) /\
     cli env self ctx =
       (ConsolePrint warning :: (dispatch env self ctx b u p).1,
        (dispatch env self ctx b u p).2)) /\
  (no_auth ctx = true ->
   handle_authentication_flags true (username ctx) (password ctx) =
     ([], Done (None, None)) /\
   cli env self ctx = dispatch env self ctx b None None).
Proof.
  intros Hsub b. split.
  - intros Hno Hone.
    assert (Hcli : forall w u p,
      handle_authentication_flags false (username ctx) (password ctx) =
        ([ConsolePrint w], Done (u, p)) ->
      cli env self ctx =
        (ConsolePrint w :: (dispatch env self ctx b u p).1,
         (dispatch env self ctx b u p).2)).
    { intros w u p Hauth.
      rewrite (cli_dispatch self ctx u p Hsub); rewrite Hno, Hauth; done. }
    rewrite auth_eq in *.
    destruct (opt_truthy (username ctx)) eqn:Hu,
             (opt_truthy (password ctx)) eqn:Hp; try done; simpl in *.
    + exists username_without_password, None, (password ctx).
      split; [done|]. split; [apply list_elem_of_here|].
      do 3 (split; [done|]). split; [|by apply Hcli].
      intros [Hn|Hn]; [by rewrite Hn in Hu|done].
    + exists password_without_username, (username ctx), None.
      split; [done|].
      split; [apply list_elem_of_further, list_elem_of_here|].
      do 3 (split; [done|]). split; [|by apply Hcli].
      intros [Hn|Hn]; [done|by rewrite Hn in Hp].
  - intros Hno. split; [done|].
    rewrite (cli_dispatch self ctx None None Hsub); rewrite Hno; [|done].
    subst b. cbn. symmetry. apply surjective_pairing.
Qed.


Lemma start_from_type_drime self btype path host port u p readonly ttl mfs ws
  cert key verbose :
  lower btype = "drime" ->
  let api_key := environ env !! "DRIME_API_KEY" in
  let r := _start_from_type env self btype path host port u p readonly ttl mfs
             ws cert key verbose in
  (forall c, c ∈ clients r.1 -> c = DrimeClient (of_opt api_key)) /\
  (opt_truthy api_key = false ->
   r.2 = SysExit 1 /\ constructed r.1 = [] /\ clients r.1 = [] /\
   served r.1 = [] /\
   r.1 = match import_pydrime env with
         | None => [ConsolePrint drime_api_key_missing]
         | Some e =>
             if is_ImportError e then [ConsolePrint pydrime_missing]
             else [ConsolePrint [Lit "[red]Error initializing ";
                                 Fmt (VStr btype); Lit " provider: ";
                                 FmtExc e; Lit "[/red]"];
                   LoggerException "Provider initialization failed"]
         end).
Proof.
  intros Hlower api_key r.
  pose proof (plain_of_lower _ _ Hlower eq_refl) as Hplain.
  remember r as r' eqn:Hr. subst r api_key.
  unfold _start_from_type in Hr. rewrite Hlower in Hr.
  change (("drime" =? "local")%string) with false in Hr.
  change (("drime" =? "drime")%string) with true in Hr.
  exec Hr; subst r'; observe;
    (split; [intros; by members|]); intros Hkey; done.
Qed.

(** *** The named path *)

Lemma eq_str_true v s : eq_str v s = true -> v = VStr s.
Proof.
  destruct v as [| | | |s']; try done. simpl.
  by intros ->%String.eqb_eq.
Qed.

Lemma default_revealed_other key d (o : option value) :
  is_sensitive key = false -> default d (revealed key <$> o) = default d o.
Proof.
  intros Hk. destruct o as [v|]; [|done]. simpl. unfold revealed.
  rewrite Hk. by destruct v.
Qed.

Lemma default_revealed_None key (o : option value) :
  default VNone (revealed key <$> o) = revealed key (default VNone o).
Proof. by destruct o. Qed.

(** What [_start_from_config] reads in the dictionary of [get_all], in
    terms of the record. *)
Ltac stored_fields Hall Hr :=
  rewrite ?(get_all_inv _ _ Hall), ?default_revealed_None,
    ?default_revealed_other in Hr by done;
  repeat match type of Hr with
    | context [default ?d (_config ?bc !! ?k)] =>
        change (default d (_config bc !! k)) with (field bc k d) in Hr
    end.

(** The run of [_start_from_config] on a record that decodes, up to the
    [try] block. *)
Ltac enter Hall Hr :=
  unfold _start_from_config in Hr; rewrite Hall in Hr;
  do 3 step Hr; stored_fields Hall Hr.

Lemma start_from_config_raises bc host port u p cert key verbose e :
  get_all bc = Raise e ->
  _start_from_config env bc host port u p cert key verbose = ([], Raised e).
Proof. intros Hall. unfold _start_from_config. by rewrite Hall. Qed.

Lemma start_from_config_local bc host port u p cert key verbose config :
  backend_type bc = VStr "local" -> get_all bc = Return config ->
  let P := stored_local_provider bc in
  let r := _start_from_config env bc host port u p cert key verbose in
  (forall P', P' ∈ constructed r.1 -> P' = P) /\
  (forall sc, sc ∈ served r.1 ->
     sc_host sc = host /\ sc_port sc = port /\
     sc_ssl_cert sc = cert /\ sc_ssl_key sc = key /\
     sc_username sc = u /\ sc_password sc = p /\
     sc_provider sc ∈ constructed r.1) /\
  (init_provider env P = None ->
   plain_value (field bc "path" DEFAULT_PATH) -> plain host -> plain_opt u ->
   constructed r.1 = [P] /\
   served r.1 =
     [mkServerCall P host port u p (verbose + 1) cert key
        [Lit "PyWebDAV Server ("; Fmt (VStr (name bc)); Lit ": ";
         Fmt (field bc "path" DEFAULT_PATH); Lit ")"]]).
Proof.
  intros Hty Hall P r.
  remember r as r' eqn:Hr. subst r P. unfold stored_local_provider.
  enter Hall Hr. rewrite Hty in Hr.
  change (eq_str (VStr "local") "local") with true in Hr.
  destruct u as [s|]; exec Hr; subst r'; observe;
    (split; [intros; by members|]);
    (split; [intros; members; repeat split; apply list_elem_of_here|]);
    unfold plain_value, plain; cbn [plain_opt]; unfold plain;
    intros Hinit Hpath Hhost Hs; try contra; done.
Qed.

Lemma start_from_config_drime bc host port u p cert key verbose config :
  backend_type bc = VStr "drime" -> get_all bc = Return config ->
  let P := stored_drime_provider bc in
  let r := _start_from_config env bc host port u p cert key verbose in
  (forall P', P' ∈ constructed r.1 -> P' = P) /\
  (forall sc, sc ∈ served r.1 ->
     sc_host sc = host /\ sc_port sc = port /\
     sc_ssl_cert sc = cert /\ sc_ssl_key sc = key /\
     sc_username sc = u /\ sc_password sc = p /\
     sc_provider sc ∈ constructed r.1) /\
  (import_pydrime env = None ->
   truthy (revealed "api_key" (field bc "api_key" VNone)) = true ->
   init_client env
     (DrimeClient (revealed "api_key" (field bc "api_key" VNone))) = None ->
   init_provider env P = None ->
   plain_value (field bc "workspace_id" (VInt 0)) -> plain host ->
   plain_opt u ->
   constructed r.1 = [P] /\
   served r.1 =
     [mkServerCall P host port u p (verbose + 1) cert key
        [Lit "PyWebDAV Server ("; Fmt (VStr (name bc)); Lit ": workspace ";
         Fmt (field bc "workspace_id" (VInt 0)); Lit ")"]]).
Proof.
  intros Hty Hall P r.
  remember r as r' eqn:Hr. subst r P. unfold stored_drime_provider.
  enter Hall Hr. rewrite Hty in Hr.
  change (eq_str (VStr "drime") "local") with false in Hr.
  change (eq_str (VStr "drime") "drime") with true in Hr.
  destruct u as [s|]; exec Hr; subst r'; observe;
    (split; [intros; by members|]);
    (split; [intros; members; repeat split; apply list_elem_of_here|]);
    unfold plain_value, plain; cbn [plain_opt]; unfold plain;
    intros Himport Hkey Hclient Hinit Hws Hhost Hs; try contra; done.
Qed.

Lemma start_from_config_other bc host port u p cert key verbose config :
  eq_str (backend_type bc) "local" = false ->
  eq_str (backend_type bc) "drime" = false ->
  get_all bc = Return config ->
  let r := _start_from_config env bc host port u p cert key verbose in
  constructed r.1 = [] /\ clients r.1 = [] /\ served r.1 = [] /\
  (plain_value (backend_type bc) ->
   r = ([ConsolePrint [Lit "[red]Error: Unknown backend type '";
                       Fmt (backend_type bc); Lit "'[/red]"]],
        SysExit 1)).
Proof.
  intros Hlocal Hdrime Hall r.
  remember r as r' eqn:Hr. subst r.
  enter Hall Hr.
  exec Hr; subst r'; observe; do 3 (split; [done|]);
    unfold plain_value; intros Hty; try contra; done.
Qed.

Lemma start_from_config_obs bc host port u p cert key verbose :
  let r := _start_from_config env bc host port u p cert key verbose in
  (forall P, P ∈ constructed r.1 ->
     (backend_type bc = VStr "local" /\ P = stored_local_provider bc) \/
     (backend_type bc = VStr "drime" /\ P = stored_drime_provider bc)) /\
  (forall sc, sc ∈ served r.1 ->
     sc_host sc = host /\ sc_port sc = port /\
     sc_ssl_cert sc = cert /\ sc_ssl_key sc = key /\
     sc_username sc = u /\ sc_password sc = p /\
     sc_provider sc ∈ constructed r.1).
Proof.
  intros r. subst r.
  destruct (get_all bc) as [config|e] eqn:Hall.
  2:{ rewrite (start_from_config_raises _ _ _ _ _ _ _ _ e Hall). cbn.
      split; intros ? Hin; by apply elem_of_nil in Hin. }
  destruct (eq_str (backend_type bc) "local") eqn:Hlocal.
  { apply eq_str_true in Hlocal.
    destruct (start_from_config_local bc host port u p cert key verbose
                config Hlocal Hall) as (HP & Hsc & _).
    split; [|done]. intros P' HP'. left. split; [done|]. by apply HP. }
  destruct (eq_str (backend_type bc) "drime") eqn:Hdrime.
  { apply eq_str_true in Hdrime.
    destruct (start_from_config_drime bc host port u p cert key verbose
                config Hdrime Hall) as (HP & Hsc & _).
    split; [|done]. intros P' HP'. right. split; [done|]. by apply HP. }
  destruct (start_from_config_other bc host port u p cert key verbose
              config Hlocal Hdrime Hall) as (Hc & _ & Hs & _).
  cbv zeta in Hc, Hs. rewrite Hc, Hs.
  split; intros ? Hin; by apply elem_of_nil in Hin.
Qed.

(** C1. When the requested identifier names a stored record, the run
    of [cli] is the same whatever [--path], [--readonly], [--cache-ttl],
    [--max-file-size] and [--workspace-id] are; the only provider it
    constructs is the one of the record (path and read-only flag of a
    [local] record; decoded API key, workspace id, read-only flag, cache
    TTL and maximal file size of a [drime] record, with the defaults of
    the code for missing fields); and every call of the server gets the
    host, port, certificate and key of the command line, with a provider
    constructed in this run.  When the record decodes, the external
    constructors succeed and no string that the console lines interpolate
    (the host, the user name, the stored path or workspace id) holds a
    closing tag, the server is called once, with that provider and that
    connection. *)
Theorem named_config_precedence (self : M) (ctx : invocation)
  (bc : BackendConfig) :
  invoked_subcommand ctx = None ->
  get_backend self (default "local" (backend ctx)) = Some bc ->
  let r := cli env self ctx in
  (forall path' readonly' cache_ttl' max_file_size' workspace_id',
     cli env self
       (set_legacy_flags path' readonly' cache_ttl' max_file_size'
          workspace_id' ctx) = r) /\
  (forall P, P ∈ constructed r.1 ->
     (backend_type bc = VStr "local" /\ P = stored_local_provider bc) \/
     (backend_type bc = VStr "drime" /\ P = stored_drime_provider bc)) /\
  (forall sc, sc ∈ served r.1 ->
     sc_host sc = host ctx /\ sc_port sc = port ctx /\
     sc_ssl_cert sc = ssl_cert ctx /\ sc_ssl_key sc = ssl_key ctx /\
     sc_provider sc ∈ constructed r.1) /\
  ((forall key s, _config bc !! key = Some (VStr s) ->
      is_sensitive key = true -> decodes_or_fails s) ->
   plain (host ctx) -> plain_opt (username ctx) ->
   (backend_type bc = VStr "local" ->
    init_provider env (stored_local_provider bc) = None ->
    plain_value (field bc "path" DEFAULT_PATH) ->
    exists sc, served r.1 = [sc] /\
      sc_provider sc = stored_local_provider bc /\
      sc_host sc = host ctx /\ sc_port sc = port ctx /\
      sc_ssl_cert sc = ssl_cert ctx /\ sc_ssl_key sc = ssl_key ctx) /\
   (backend_type bc = VStr "drime" ->
    import_pydrime env = None ->
    truthy (revealed "api_key" (field bc "api_key" VNone)) = true ->
    init_client env
      (DrimeClient (revealed "api_key" (field bc "api_key" VNone))) = None ->
    init_provider env (stored_drime_provider bc) = None ->
    plain_value (field bc "workspace_id" (VInt 0)) ->
    exists sc, served r.1 = [sc] /\
      sc_provider sc = stored_drime_provider bc /\
      sc_host sc = host ctx /\ sc_port sc = port ctx /\
      sc_ssl_cert sc = ssl_cert ctx /\ sc_ssl_key sc = ssl_key ctx)).
Proof.
  intros Hsub Hget r.
  destruct (auth_ends_Done (no_auth ctx) (username ctx) (password ctx))
    as [[u p] Hauth].
  pose proof (cli_named self ctx bc u p Hsub Hauth Hget) as Hcli.
  cbv zeta in Hcli.
  split.
  { intros path' readonly' cache_ttl' max_file_size' workspace_id'.
    subst r. rewrite Hcli.
    by rewrite (cli_named self (set_legacy_flags _ _ _ _ _ ctx) bc u p). }
  subst r. rewrite Hcli. cbn [fst snd].
  rewrite constructed_after_auth, served_after_auth.
  change (constructed (ConsolePrint ?x :: ?t)) with (constructed t).
  change (served (ConsolePrint ?x :: ?t)) with (served t).
  destruct (start_from_config_obs bc (host ctx) (port ctx) u p (ssl_cert ctx)
              (ssl_key ctx) (verbose ctx)) as [Hprov Hserved].
  cbv zeta in Hprov, Hserved.
  split; [done|]. split.
  { intros sc Hsc. destruct (Hserved sc Hsc) as (?&?&?&?&?&?&?). done. }
  intros Hdec Hhost Huser.
  destruct (get_all_revealed bc Hdec) as (config & Hall & _).
  pose proof (auth_plain _ _ _ _ _ Hauth Huser) as Hu.
  split.
  - intros Hty Hinit Hpath.
    destruct (start_from_config_local bc (host ctx) (port ctx) u p
                (ssl_cert ctx) (ssl_key ctx) (verbose ctx) config Hty Hall)
      as (_ & _ & Hlive).
    destruct (Hlive Hinit Hpath Hhost Hu) as [_ Hs].
    rewrite Hs. by eexists.
  - intros Hty Himport Hkey Hclient Hinit Hws.
    destruct (start_from_config_drime bc (host ctx) (port ctx) u p
                (ssl_cert ctx) (ssl_key ctx) (verbose ctx) config Hty Hall)
      as (_ & _ & Hlive).
    destruct (Hlive Himport Hkey Hclient Hinit Hws Hhost Hu) as [_ Hs].
    rewrite Hs. by eexists.
Qed.

(** C6, as the code has it.  On the legacy path with type ["drime"] in
    any case of letters, the only API key a client is created with is the
    one of [DRIME_API_KEY].  When that variable is unset or empty, the
    program ends with exit code 1 without creating a client, constructing
    a provider or calling the server; it prints the remediation text when
    [pydrime] imports, the installation hint when the import raises
    [ImportError], and the initialisation error for any other exception
    of the import. *)
Theorem legacy_drime_needs_api_key (self : M) (ctx : invocation) :
  let b := default "local" (backend ctx) in
  invoked_subcommand ctx = None ->
  get_backend self b = None ->
  lower b = "drime" ->
  let auth :=
    handle_authentication_flags (no_auth ctx) (username ctx) (password ctx) in
  let r := cli env self ctx in
  (forall c, c ∈ clients r.1 ->
     c = DrimeClient (of_opt (environ env !! "DRIME_API_KEY"))) /\
  (opt_truthy (environ env !! "DRIME_API_KEY") = false ->
   r.2 = SysExit 1 /\ constructed r.1 = [] /\ clients r.1 = [] /\
   served r.1 = [] /\
   r.1 = auth.1 ++
         match import_pydrime env with
         | None => [ConsolePrint drime_api_key_missing]
         | Some e =>
             if is_ImportError e then [ConsolePrint pydrime_missing]
             else [ConsolePrint [Lit "[red]Error initializing ";
                                 Fmt (VStr b); Lit " provider: ";
                                 FmtExc e; Lit "[/red]"];
                   LoggerException "Provider initialization failed"]
         end).
Proof.
  intros b Hsub Hget Hlower auth r.
  destruct (auth_ends_Done (no_auth ctx) (username ctx) (password ctx))
    as [[u p] Hauth].
  pose proof (cli_legacy self ctx u p Hsub Hauth Hget) as Hcli.
  cbv zeta in Hcli. subst r. rewrite Hcli. cbn [fst snd]. fold b auth.
  unfold auth at 1 2 3 4.
  rewrite constructed_after_auth, clients_after_auth, served_after_auth.
  destruct (start_from_type_drime self b (path ctx) (host ctx) (port ctx) u p
              (readonly ctx) (cache_ttl ctx) (max_file_size ctx)
              (workspace_id ctx) (ssl_cert ctx) (ssl_key ctx) (verbose ctx)
              Hlower) as [Hclients Hmissing].
  cbv zeta in Hclients, Hmissing. split; [done|].
  intros Hkey. destruct (Hmissing Hkey) as (? & ? & ? & ? & Htrace).
  by rewrite <- Htrace.
Qed.

End cli_properties.

(** ** The statements on concrete inputs *)

Lemma tag_decodes_or_fails s : decodes_or_fails (C:=tag_codec) s.
Proof.
  unfold decodes_or_fails. simpl. unfold tag_reveal.
  destruct (strip_prefix "enc:" s) as [r|]; [|done].
  by destruct (String.eqb r "").
Qed.

(** A text is not among those of a concrete run. *)
Ltac not_printed :=
  let H := fresh "Hin" in
  intros H; vm_compute in H;
  repeat (apply elem_of_cons in H as [H|H]; [discriminate H|]);
  by apply elem_of_nil in H.

Lemma api_key_sensitive : "api_key" ∈ sensitive_keys.
Proof. apply (bool_decide_unpack _). vm_compute. exact I. Defined.

Lemma password_sensitive : "password" ∈ sensitive_keys.
Proof. apply (bool_decide_unpack _). vm_compute. exact I. Defined.

Lemma get_reveal_or_passthrough_witness :
  get (C:=tag_codec) drime_record "api_key" VNone = Return (VStr "k3y") /\
  get (C:=tag_codec) drime_record "password" VNone = Return (VStr "plain") /\
  exists all, get_all (C:=tag_codec) drime_record = Return all /\
    all !! "api_key" = Some (VStr "k3y") /\
    all !! "password" = Some (VStr "plain") /\
    all !! "workspace_id" = Some (VInt 7) /\
    all !! "path" = None.
Proof.
  destruct (get_reveal_or_passthrough (C:=tag_codec) drime_record)
    as [Hget Hall].
  split; [|split].
  - apply (proj1 (Hget "api_key" "enc:k3y" VNone api_key_sensitive eq_refl)).
    reflexivity.
  - apply (proj1 (proj2 (Hget "password" "plain" VNone password_sensitive
                           eq_refl)) (Exc ValueError "not obscured"));
      reflexivity.
  - destruct Hall as (all & Hall & Hsens & Hother & Hnone).
    { intros key s _ _. apply tag_decodes_or_fails. }
    exists all. split; [exact Hall|]. split; [|split; [|split]].
    + apply (Hsens "api_key" "enc:k3y" api_key_sensitive). reflexivity.
    + apply (Hsens "password" "plain" password_sensitive). reflexivity.
    + apply (Hother "workspace_id" (VInt 7)); [reflexivity|by right].
    + apply Hnone. reflexivity.
Defined.

Lemma get_reveals_default_witness :
  get (C:=tag_codec) drime_record "drime_password" (VStr "enc:fallback")
    = Return (VStr "fallback") /\
  get (C:=tag_codec) drime_record "drime_password" (VStr "fallback")
    = Return (VStr "fallback").
Proof.
  assert (Hk : "drime_password" ∈ sensitive_keys).
  { apply (bool_decide_unpack _). vm_compute. exact I. }
  split.
  - apply (proj1 (get_reveals_default (C:=tag_codec) drime_record
                      "drime_password" "enc:fallback" Hk eq_refl)).
    reflexivity.
  - apply (proj1 (proj2 (get_reveals_default (C:=tag_codec) drime_record
                           "drime_password" "fallback" Hk eq_refl))
             (Exc ValueError "not obscured")); reflexivity.
Defined.

Lemma add_backend_obscures_once_witness :
  let config : gmap string value :=
    <[ "api_key" := VStr "s3cret" ]>
      (<[ "password" := VStr "enc:x" ]> {[ "workspace_id" := VInt 0 ]}) in
  (exists fc,
     add_backend_record (C:=tag_codec) "drime" config true = Return fc /\
     fc !! "api_key" = Some (VStr "enc:s3cret") /\
     fc !! "password" = Some (VStr "enc:x")) /\
  (exists m1 m2 b t,
     add_backend (C:=tag_codec) (CM:=alist_manager) [] "work" "drime" config
       true = Return m1 /\
     add_backend (C:=tag_codec) (CM:=alist_manager) m1 "work" "drime" config
       true = Return m2 /\
     get_backend (CM:=alist_manager) m2 "work" = Some b /\
     _config b !! "api_key" = Some (VStr t) /\
     tag_obscure "s3cret" = Return t /\ tag_reveal t = Return "s3cret").
Proof.
  intros config.
  destruct (add_backend_obscures_once (C:=tag_codec) (CM:=alist_manager)
              "drime" config) as [Hrecord Htwice].
  split.
  - destruct Hrecord as (fc & Hfc & _ & Hkeys).
    { intros key s Hkey. unfold sensitive_keys in Hkey.
      rewrite !elem_of_cons, elem_of_nil in Hkey.
      destruct Hkey as [->|[->|[->|[]]]]; vm_compute; intros [= <-] _;
        try discriminate; by eexists. }
    exists fc. split; [exact Hfc|]. split.
    + pose proof (Hkeys "api_key" "s3cret" api_key_sensitive eq_refl) as Hk.
      change (exists t, tag_obscure "s3cret" = Return t /\
                        fc !! "api_key" = Some (VStr t)) in Hk.
      destruct Hk as (t & Ht & Hk). vm_compute in Ht.
      injection Ht as <-. exact Hk.
    + exact (Hkeys "password" "enc:x" password_sensitive eq_refl).
  - pose (m := [("work",
                  <[ "api_key" := VStr "enc:s3cret" ]>
                    (<[ "type" := VStr "drime" ]> config))] : alist_store).
    assert (H1 : add_backend (C:=tag_codec) (CM:=alist_manager) [] "work"
                   "drime" config true = Return m).
    { vm_compute. reflexivity. }
    assert (H2 : add_backend (C:=tag_codec) (CM:=alist_manager) m "work"
                   "drime" config true = Return m).
    { vm_compute. reflexivity. }
    destruct (Htwice alist_manager_laws [] "work" "api_key" "s3cret" m m
                api_key_sensitive eq_refl H1 H2)
      as (b & Hb & _ & Hplain & _).
    destruct (Hplain eq_refl) as (t & Ht & Hstored & Hrev).
    exists m, m, b, t.
    split; [exact H1|]. split; [exact H2|]. split; [exact Hb|].
    split; [exact Hstored|]. split; [exact Ht|exact (Hrev tag_round_trip)].
Defined.

Lemma names_by_type_exact_witness :
  get_backend_names_by_type (CM:=alist_manager) abc_store "local" = ["a"; "c"]
  /\ "b" ∉ get_backend_names_by_type (CM:=alist_manager) abc_store "local".
Proof.
  destruct (names_by_type_exact (CM:=alist_manager) abc_store "local")
    as (Heq & _ & Hmem & _).
  split; [rewrite Heq; reflexivity|].
  intros Hin. apply Hmem in Hin as [_ (b & Hb & Hty)].
  vm_compute in Hb. injection Hb as <-. discriminate Hty.
Defined.

Lemma unknown_type_is_fatal_witness :
  cli (C:=tag_codec) (CM:=alist_manager) (K:=test_constants)
    (R:=lenient_rich) (quiet_env ∅) abc_store
    (set_backend (Some "s3") plain_invocation) =
  (map ConsolePrint
     (unknown_backend "s3" ++
      [[Lit "  - "; FmtName "a"]; [Lit "  - "; FmtName "b"];
       [Lit "  - "; FmtName "c"]]),
   SysExit 1) /\
  cli (C:=tag_codec) (CM:=alist_manager) (K:=test_constants)
    (R:=strict_rich) (quiet_env ∅) abc_store
    (set_backend (Some "[/x]") plain_invocation) =
  ([], MarkupError "closing tag doesn't match any open tag").
Proof.
  split.
  - destruct (unknown_type_is_fatal (C:=tag_codec) (CM:=alist_manager)
                (K:=test_constants) (R:=lenient_rich) (quiet_env ∅) abc_store
                (set_backend (Some "s3") plain_invocation) eq_refl eq_refl)
      as [Hhint _]; [vm_compute; discriminate|vm_compute; discriminate|].
    exact (Hhint (or_introl eq_refl)).
  - destruct (unknown_type_is_fatal (C:=tag_codec) (CM:=alist_manager)
                (K:=test_constants) (R:=strict_rich) (quiet_env ∅) abc_store
                (set_backend (Some "[/x]") plain_invocation) eq_refl eq_refl)
      as [_ Hraises]; [vm_compute; discriminate|vm_compute; discriminate|].
    exact (Hraises "closing tag doesn't match any open tag" eq_refl eq_refl).
Defined.

Lemma partial_credentials_downgrade_witness :
  let ctx := set_credentials (Some "alice") None plain_invocation in
  exists warning,
    handle_authentication_flags (R:=lenient_rich) false (Some "alice") None =
      ([ConsolePrint warning], Done (None, None)) /\
    (cli (C:=tag_codec) (CM:=alist_manager) (K:=test_constants)
       (R:=lenient_rich) (quiet_env ∅) [] ctx).1 !! 0%nat = Some (ConsolePrint warning).
Proof.
  intros ctx.
  destruct (partial_credentials_downgrade (C:=tag_codec) (CM:=alist_manager)
              (K:=test_constants) (R:=lenient_rich)
              (quiet_env ∅) [] ctx eq_refl)
    as [Hone _].
  destruct (Hone eq_refl) as (w & u & p & Hauth & _ & _ & _ & _ & Hnone & Hcli).
  { discriminate. }
  destruct (Hnone (or_intror eq_refl)) as [-> ->].
  exists w. split; [exact Hauth|]. rewrite Hcli. reflexivity.
Defined.

Lemma legacy_drime_needs_api_key_witness :
  let r := cli (C:=tag_codec) (CM:=alist_manager) (K:=test_constants)
             (R:=lenient_rich) (quiet_env ∅) abc_store
             (set_backend (Some "DRIME") plain_invocation) in
  r.2 = SysExit 1 /\ r.1 = [ConsolePrint drime_api_key_missing] /\
  constructed r.1 = [] /\ served r.1 = [].
Proof.
  intros r.
  destruct (legacy_drime_needs_api_key (C:=tag_codec) (CM:=alist_manager)
              (K:=test_constants) (R:=lenient_rich)
              (quiet_env ∅) abc_store
              (set_backend (Some "DRIME") plain_invocation)
              eq_refl eq_refl eq_refl) as [_ Hmissing].
  destruct (Hmissing eq_refl) as (Hexit & Hc & _ & Hs & Htrace).
  split; [exact Hexit|]. split; [exact Htrace|]. split; [exact Hc|exact Hs].
Defined.


Lemma named_config_precedence_witness :
  let r := cli (C:=tag_codec) (CM:=alist_manager) (K:=test_constants)
             (R:=lenient_rich) (quiet_env ∅) archive_store archive_invocation in
  cli (C:=tag_codec) (CM:=alist_manager) (K:=test_constants) (R:=lenient_rich)
              (quiet_env ∅)
    archive_store
    (set_legacy_flags "/tmp/webdav" true 5%float 1 0 archive_invocation) = r /\
  exists sc, served r.1 = [sc] /\
    sc_provider sc = LocalStorageProvider (VStr "/srv/archive") (VBool true) /\
    sc_host sc = "0.0.0.0" /\ sc_port sc = 9999.
Proof.
  intros r.
  destruct (named_config_precedence (C:=tag_codec) (CM:=alist_manager)
              (K:=test_constants) (R:=lenient_rich)
              (quiet_env ∅) archive_store
              archive_invocation
              (mkBackendConfig "archive" (VStr "local")
                 (<[ "path" := VStr "/srv/archive" ]>
                    {[ "readonly" := VBool true ]}))
              eq_refl) as (Hflags & _ & _ & Hlive).
  { vm_compute. reflexivity. }
  split; [apply Hflags|].
  destruct Hlive as [Hlocal _].
  { intros key s _ _. apply tag_decodes_or_fails. }
  { reflexivity. }
  { exact I. }
  destruct (Hlocal eq_refl eq_refl eq_refl)
    as (sc & Hsc & Hp & Hh & Hport & _).
  exists sc. split; [exact Hsc|]. split; [exact Hp|]. split; [exact Hh|exact Hport].
Defined.

(** C5, as the claim states it, fails: [--password ''] alone is one
    supplied credential, yet no warning is printed and the password is
    still the empty string when the server is called. *)
Lemma empty_password_not_downgraded :
  let ctx := set_credentials None (Some "") plain_invocation in
  let r := cli (C:=tag_codec) (CM:=alist_manager) (K:=test_constants)
             (R:=lenient_rich) (quiet_env ∅) [] ctx in
  handle_authentication_flags (R:=lenient_rich) false None (Some "") =
    ([], Done (None, Some "")) /\
  (username_without_password ∉ printed r.1) /\
  (password_without_username ∉ printed r.1) /\
  sc_password <$> served r.1 = [Some ""] /\
  ~ (forall u p : option string,
       bool_decide (is_Some u) ≠ bool_decide (is_Some p) ->
       exists warning,
         handle_authentication_flags (R:=lenient_rich) false u p =
           ([ConsolePrint warning], Done (None, None))).
Proof.
  intros ctx r. split; [reflexivity|].
  split; [not_printed|]. split; [not_printed|].
  split; [reflexivity|].
  intros Hclaim. destruct (Hclaim None (Some "")) as [w Hw]; [discriminate|].
  discriminate Hw.
Qed.

(** C6, as the claim states it, fails: without the optional [pydrime]
    dependency the legacy [drime] path ends on the installation hint, and
    the remediation text for the missing [DRIME_API_KEY] is not printed. *)
Lemma missing_pydrime_hides_remediation :
  let env := no_pydrime_env ∅ in
  let ctx := set_backend (Some "drime") plain_invocation in
  let r := cli (C:=tag_codec) (CM:=alist_manager) (K:=test_constants)
             (R:=lenient_rich) env [] ctx in
  get_backend (CM:=alist_manager) [] "drime" = None /\
  lower "drime" = "drime" /\
  environ env !! "DRIME_API_KEY" = None /\
  r = ([ConsolePrint pydrime_missing], SysExit 1) /\
  (drime_api_key_missing ∉ printed r.1).
Proof.
  intros env ctx r. do 4 (split; [reflexivity|]). not_printed.
Qed.


(** C3, as the claim states it, fails: a secret that [is_obscured]
    accepts is stored as it is, so that what [reveal] makes of the stored
    value is not the secret.  With the prefix codec, whose [reveal]
    inverts its [obscure], the secret ["enc:x"] is stored unchanged by
    both calls and read back as ["x"]. *)
Lemma obscured_looking_secret_is_lost :
  let config : gmap string value := {[ "password" := VStr "enc:x" ]} in
  let m : alist_store :=
    [("n", <[ "type" := VStr "local" ]> config)] in
  round_trip tag_codec /\
  add_backend (C:=tag_codec) (CM:=alist_manager) [] "n" "local" config true
    = Return m /\
  add_backend (C:=tag_codec) (CM:=alist_manager) m "n" "local" config true
    = Return m /\
  get_backend (CM:=alist_manager) m "n" =
    Some (mkBackendConfig "n" (VStr "local") config) /\
  tag_is_obscured "enc:x" = true /\
  tag_reveal "enc:x" = Return "x" /\
  get (C:=tag_codec) (mkBackendConfig "n" (VStr "local") config) "password"
    VNone = Return (VStr "x") /\
  ~ (forall p : string, p <> "" ->
       forall m1 m2,
         add_backend (C:=tag_codec) (CM:=alist_manager) [] "n" "local"
           {[ "password" := VStr p ]} true = Return m1 ->
         add_backend (C:=tag_codec) (CM:=alist_manager) m1 "n" "local"
           {[ "password" := VStr p ]} true = Return m2 ->
         exists b t, get_backend (CM:=alist_manager) m2 "n" = Some b /\
           _config b !! "password" = Some (VStr t) /\
           tag_is_obscured t = true /\ tag_reveal t = Return p).
Proof.
  intros config m. split; [exact tag_round_trip|].
  assert (H1 : add_backend (C:=tag_codec) (CM:=alist_manager) [] "n" "local"
                 config true = Return m) by (vm_compute; reflexivity).
  assert (H2 : add_backend (C:=tag_codec) (CM:=alist_manager) m "n" "local"
                 config true = Return m) by (vm_compute; reflexivity).
  split; [exact H1|]. split; [exact H2|].
  split; [vm_compute; reflexivity|].
  split; [reflexivity|]. split; [reflexivity|]. split; [reflexivity|].
  intros Hclaim.
  destruct (Hclaim "enc:x" ltac:(discriminate) m m H1 H2)
    as (b & t & Hb & Ht & _ & Hrev).
  vm_compute in Hb. injection Hb as <-.
  vm_compute in Ht. injection Ht as <-.
  discriminate Hrev.
Qed.

(** C7, as the claim states it, fails on an identifier with a closing
    tag: with a console that raises on it, as [rich] does, nothing is
    printed, no hint is given and the program does not reach its
    [sys.exit(1)]. *)
Lemma closing_tag_in_backend_escapes :
  let ctx := set_backend (Some "[/x]") plain_invocation in
  let r := cli (C:=tag_codec) (CM:=alist_manager) (K:=test_constants)
             (R:=strict_rich) (quiet_env ∅) abc_store ctx in
  get_backend (CM:=alist_manager) abc_store "[/x]" = None /\
  lower "[/x]" <> "local" /\ lower "[/x]" <> "drime" /\
  r = ([], MarkupError "closing tag doesn't match any open tag") /\
  r.2 <> SysExit 1 /\ printed r.1 = [].
Proof.
  intros ctx r. split; [reflexivity|].
  split; [discriminate|]. split; [discriminate|].
  split; [reflexivity|]. split; [discriminate|reflexivity].
Qed.

(** * Further properties *)

(** ** The accessors of a record *)

Section more_record_properties.
Context {C : Codec}.

Lemma get_all_loop_decodes items res all :
  get_all_loop items res = Return all ->
  forall key s, (key, VStr s) ∈ items -> is_sensitive key = true ->
                decodes_or_fails s.
Proof.
  revert res. induction items as [|[k v] items IH]; intros res Hrun key s Hin Hk.
  - by apply elem_of_nil in Hin.
  - apply elem_of_cons in Hin as [[= <- <-]|Hin].
    + simpl in Hrun. rewrite Hk in Hrun. unfold decodes_or_fails.
      destruct (reveal s) as [p|e]; [done|].
      unfold is_ValueError in Hrun. by destruct (exc_cls e).
    + simpl in Hrun. destruct v as [| | | |s'];
        try (by apply (IH _ Hrun key s)).
      destruct (is_sensitive k); [|by apply (IH _ Hrun key s)].
      destruct (reveal s') as [p|e]; [by apply (IH _ Hrun key s)|].
      destruct (is_ValueError e); [by apply (IH _ Hrun key s)|done].
Qed.

Lemma get_all_decodes self all :
  get_all self = Return all ->
  forall key s, _config self !! key = Some (VStr s) ->
                is_sensitive key = true -> decodes_or_fails s.
Proof.
  intros Hrun key s Hlk. apply (get_all_loop_decodes _ _ _ Hrun).
  by apply elem_of_map_to_list.
Qed.

Lemma get_all_loop_raises items res e :
  get_all_loop items res = Raise e ->
  exists key s, (key, VStr s) ∈ items /\ is_sensitive key = true /\
                reveal s = Raise e /\ exc_cls e <> ValueError.
Proof.
  revert res. induction items as [|[k v] items IH]; intros res Hrun; [done|].
  assert (Hrest : forall res', get_all_loop items res' = Raise e ->
            exists key s, (key, VStr s) ∈ (k, v) :: items /\
              is_sensitive key = true /\ reveal s = Raise e /\
              exc_cls e <> ValueError).
  { intros res' Hr. destruct (IH _ Hr) as (key & s & Hin & ?).
    exists key, s. split; [by apply list_elem_of_further|done]. }
  simpl in Hrun. destruct v as [| | | |s]; try by eapply Hrest.
  destruct (is_sensitive k) eqn:Hk; [|by eapply Hrest].
  destruct (reveal s) as [p|e'] eqn:Hs; [by eapply Hrest|].
  destruct (is_ValueError e') eqn:He; [by eapply Hrest|].
  injection Hrun as ->. exists k, s.
  split; [apply list_elem_of_here|]. do 2 (split; [done|]).
  unfold is_ValueError in He. intros Hcls. by rewrite Hcls in He.
Qed.

(** X1. What [get] returns for a key of the record is what [get_all]
    holds under that key: whenever [get_all] returns a dictionary with a
    value under [key], [get] returns that value, whatever the default. *)
Theorem get_agrees_with_get_all (self : BackendConfig)
  (all : gmap string value) (key : string) (v dflt : value) :
  get_all self = Return all -> all !! key = Some v ->
  get self key dflt = Return v.
Proof.
  intros Hall Hv. rewrite (get_all_inv _ _ Hall) in Hv.
  destruct (_config self !! key) as [v0|] eqn:Hlk; [|done].
  injection Hv as <-.
  rewrite get_revealed; [by rewrite Hlk|].
  rewrite Hlk. simpl. intros s -> Hk. by apply (get_all_decodes self all Hall key).
Qed.

(** X2. [get_all] raises only the exception of a [reveal] that is not a
    [ValueError], on a string stored under a sensitive key; and it does
    raise as soon as the record holds one such string. *)
Theorem get_all_raises_unexpected (self : BackendConfig) :
  (forall e, get_all self = Raise e ->
     exists key s, _config self !! key = Some (VStr s) /\
       key ∈ sensitive_keys /\ reveal s = Raise e /\
       exc_cls e <> ValueError) /\
  (forall key s e, _config self !! key = Some (VStr s) ->
     key ∈ sensitive_keys -> reveal s = Raise e -> exc_cls e <> ValueError ->
     exists e', get_all self = Raise e' /\ exc_cls e' <> ValueError).
Proof.
  split.
  - intros e Hrun. destruct (get_all_loop_raises _ _ _ Hrun)
      as (key & s & Hin & Hk & Hs & He).
    exists key, s. split; [by apply elem_of_map_to_list|].
    split; [|done]. unfold is_sensitive in Hk. by apply bool_decide_eq_true in Hk.
  - intros key s e Hlk Hk Hs He.
    destruct (get_all self) as [all|e'] eqn:Hrun.
    + pose proof (get_all_decodes self all Hrun key s Hlk
                    (is_sensitive_true key Hk)) as Hd.
      unfold decodes_or_fails in Hd. by rewrite Hs in Hd.
    + exists e'. split; [done|].
      by destruct (get_all_loop_raises _ _ _ Hrun) as (? & ? & _ & _ & _ & ?).
Qed.

(** X3. The dictionary of [get_all] has the keys of the record, no more
    and no fewer, and a value is a string exactly when the stored one
    is. *)
Theorem get_all_same_keys (self : BackendConfig) (all : gmap string value) :
  get_all self = Return all ->
  dom all = dom (_config self) /\
  (forall key v v', _config self !! key = Some v -> all !! key = Some v' ->
     is_str v' = is_str v).
Proof.
  intros Hall. split.
  - apply set_eq. intros key. rewrite !elem_of_dom, (get_all_inv _ _ Hall).
    by rewrite fmap_is_Some.
  - intros key v v' Hv Hv'. rewrite (get_all_inv _ _ Hall), Hv in Hv'.
    injection Hv' as <-. unfold revealed. destruct v as [| | | |s]; try done.
    destruct (is_sensitive key); [|done]. by destruct (reveal s).
Qed.

End more_record_properties.

(** ** The store *)

Section more_store_properties.
Context {C : Codec} `{CM : ConfigManager M}.

Lemma obscure_loop_raises keys (fc : gmap string value) e :
  NoDup keys -> obscure_loop keys fc = Raise e ->
  exists key s, key ∈ keys /\ fc !! key = Some (VStr s) /\
    is_obscured s = false /\ obscure s = Raise e.
Proof.
  revert fc. induction keys as [|k keys IH]; intros fc Hnd Hrun; [done|].
  apply NoDup_cons in Hnd as [Hk Hnd]. simpl in Hrun.
  assert (Hrest : obscure_loop keys fc = Raise e ->
            exists key s, key ∈ k :: keys /\ fc !! key = Some (VStr s) /\
              is_obscured s = false /\ obscure s = Raise e).
  { intros Hr. destruct (IH _ Hnd Hr) as (key & s & Hin & ?).
    exists key, s. split; [by right|done]. }
  destruct (fc !! k) as [[| | | |s]|] eqn:Hfc; try by apply Hrest.
  destruct (is_obscured s) eqn:Hobs; [by apply Hrest|]. simpl in Hrun.
  destruct (obscure s) as [t|e'] eqn:Ht.
  - simpl in Hrun. destruct (IH _ Hnd Hrun) as (key & s' & Hin & Hlk & ?).
    exists key, s'. split; [by right|]. split; [|done].
    rewrite lookup_insert_ne in Hlk; [done|]. by intros ->.
  - injection Hrun as ->. exists k, s. split; [by left|done].
Qed.

Lemma obscure_loop_noop keys (fc : gmap string value) :
  (forall key s, key ∈ keys -> fc !! key = Some (VStr s) ->
                 is_obscured s = true) ->
  obscure_loop keys fc = Return fc.
Proof.
  induction keys as [|k keys IH]; intros Hobs; [done|]. simpl.
  assert (Hrest : obscure_loop keys fc = Return fc).
  { apply IH. intros key s Hin. apply Hobs. by right. }
  destruct (fc !! k) as [[| | | |s]|] eqn:Hfc; try done.
  by rewrite (Hobs k s (list_elem_of_here _ _) Hfc).
Qed.

Lemma add_backend_record_other ty config flag fc key :
  add_backend_record ty config flag = Return fc ->
  key ∉ sensitive_keys ->
  fc !! key = (config ∪ {[ "type" := VStr ty ]}) !! key.
Proof.
  unfold add_backend_record. intros Hrun Hkey. destruct flag.
  - by destruct (obscure_loop_inv _ _ _ NoDup_sensitive_keys Hrun) as [-> _].
  - by injection Hrun as <-.
Qed.

Lemma type_not_sensitive : "type" ∉ sensitive_keys.
Proof. intros Hin. by apply sensitive_not_type in Hin. Qed.

Lemma lookup_type_with_type (config : gmap string value) ty :
  (config ∪ {[ "type" := VStr ty ]}) !! "type"
  = Some (default (VStr ty) (config !! "type")).
Proof.
  rewrite lookup_union, lookup_singleton_eq.
  by destruct (config !! "type").
Qed.

(** X4. A backend that was added is read back under its name: its type
    is the [backend_type] argument unless the configuration has a key
    ["type"] of its own, which then wins; the record has no key ["type"];
    every other key that is not sensitive holds the value given; and
    without [obscure_passwords] the record is the configuration given,
    less its key ["type"]. *)
Theorem add_then_get_backend `{!ConfigManagerLaws CM} (self self' : M)
  (n ty : string) (config : gmap string value) (flag : bool) :
  add_backend self n ty config flag = Return self' ->
  exists b, get_backend self' n = Some b /\ name b = n /\
    backend_type b = default (VStr ty) (config !! "type") /\
    _config b !! "type" = None /\
    (forall key, key ∉ sensitive_keys -> key <> "type" ->
       _config b !! key = config !! key) /\
    (flag = false -> _config b = delete "type" config).
Proof.
  unfold add_backend. intros Hadd.
  destruct (add_backend_record ty config flag) as [fc|e] eqn:Hfc; [|done].
  simpl in Hadd. eexists.
  split; [by apply (get_backend_after_add self)|]. simpl.
  split; [done|].
  pose proof (add_backend_record_other _ _ _ _ "type" Hfc type_not_sensitive)
    as Hty.
  rewrite lookup_type_with_type in Hty.
  split; [by rewrite Hty|]. split; [apply lookup_delete_eq|]. split.
  - intros key Hkey Hne. rewrite lookup_delete_ne by done.
    rewrite (add_backend_record_other _ _ _ _ key Hfc Hkey).
    by apply lookup_with_type.
  - intros ->. injection Hfc as <-. apply map_eq. intros key.
    destruct (decide (key = "type")) as [->|Hne].
    + by rewrite !lookup_delete_eq.
    + by rewrite !lookup_delete_ne, lookup_with_type by done.
Qed.

(** X5. A secret comes back from the store: when [reveal] inverts
    [obscure], after [add_backend] with [obscure_passwords], [get] on
    the record read back returns, under each sensitive key, the string
    that was given, when [is_obscured] rejects that string. *)
Theorem secret_round_trip `{!ConfigManagerLaws CM}
  (self self' : M) (n ty : string) (config : gmap string value) :
  round_trip C ->
  add_backend self n ty config true = Return self' ->
  exists b, get_backend self' n = Some b /\
    forall key p dflt, key ∈ sensitive_keys ->
      config !! key = Some (VStr p) -> is_obscured p = false ->
      get b key dflt = Return (VStr p).
Proof.
  unfold add_backend. intros Hrt Hadd.
  destruct (add_backend_record ty config true) as [fc|e] eqn:Hfc; [|done].
  simpl in Hadd. eexists.
  split; [by apply (get_backend_after_add self)|].
  intros key p dflt Hkey Hp Hplain.
  pose proof (add_backend_record_inv ty config fc Hfc key Hkey) as Hst.
  rewrite Hp in Hst. simpl in Hst. rewrite Hplain in Hst.
  destruct Hst as (t & Ht & Hstored).
  unfold get. simpl.
  rewrite lookup_delete_ne by (symmetry; by apply sensitive_not_type).
  rewrite Hstored. simpl. rewrite (is_sensitive_true _ Hkey).
  by rewrite (Hrt p t Ht).
Qed.

(** X6. [add_backend] with [obscure_passwords] raises before it writes
    exactly when [obscure] raises on a string that is stored under a
    sensitive key and is not yet obscured: the exception is the one of
    [obscure], and the store is not called. *)
Theorem add_backend_raises_from_obscure (ty : string)
  (config : gmap string value) :
  (forall e, add_backend_record ty config true = Raise e ->
     exists key s, key ∈ sensitive_keys /\ config !! key = Some (VStr s) /\
       is_obscured s = false /\ obscure s = Raise e) /\
  (forall key s e, key ∈ sensitive_keys -> config !! key = Some (VStr s) ->
     is_obscured s = false -> obscure s = Raise e ->
     exists e', add_backend_record ty config true = Raise e' /\
       forall self n, add_backend self n ty config true = Raise e').
Proof.
  split.
  - unfold add_backend_record. intros e Hrun.
    destruct (obscure_loop_raises _ _ _ NoDup_sensitive_keys Hrun)
      as (key & s & Hkey & Hlk & Hobs & He).
    exists key, s. split; [done|]. split; [|done].
    by rewrite lookup_with_type in Hlk by by apply sensitive_not_type.
  - intros key s e Hkey Hlk Hobs He.
    destruct (add_backend_record ty config true) as [fc|e'] eqn:Hfc.
    + pose proof (add_backend_record_inv ty config fc Hfc key Hkey) as Hst.
      rewrite Hlk in Hst. simpl in Hst. rewrite Hobs in Hst.
      destruct Hst as (t & Ht & _). congruence.
    + exists e'. split; [done|]. intros self n. unfold add_backend.
      by rewrite Hfc.
Qed.

(** X7. Saving what was stored: when the dictionary that [add_backend]
    hands to the store is passed to [add_backend] again, with any type
    argument, a string under a sensitive key is kept if [is_obscured]
    accepts it and replaced by its own token, encoded once more, if not.
    So the dictionary is handed over unchanged when [is_obscured] accepts
    every string it holds under a sensitive key, and only then. *)
Theorem resave_keeps_or_encodes_again (ty ty' : string)
  (config fc : gmap string value) :
  add_backend_record ty config true = Return fc ->
  ((forall key s, key ∈ sensitive_keys -> fc !! key = Some (VStr s) ->
      is_obscured s = true) ->
   add_backend_record ty' fc true = Return fc) /\
  (forall key s fc', key ∈ sensitive_keys -> fc !! key = Some (VStr s) ->
     is_obscured s = false ->
     add_backend_record ty' fc true = Return fc' ->
     exists t, obscure s = Return t /\ fc' !! key = Some (VStr t)).
Proof.
  intros Hfc.
  pose proof (add_backend_record_other _ _ _ _ "type" Hfc type_not_sensitive)
    as Hty.
  rewrite lookup_type_with_type in Hty.
  assert (Hsame : fc ∪ {[ "type" := VStr ty' ]} = fc).
  { apply map_eq. intros key. rewrite lookup_union.
    destruct (decide (key = "type")) as [->|Hne].
    - by rewrite Hty.
    - rewrite lookup_singleton_ne by done. by destruct (fc !! key). }
  split.
  - intros Hobs. unfold add_backend_record. rewrite Hsame.
    by apply obscure_loop_noop.
  - intros key s fc' Hkey Hlk Hobs Hagain.
    pose proof (add_backend_record_inv ty' fc fc' Hagain key Hkey) as Hst.
    rewrite Hlk in Hst. simpl in Hst. by rewrite Hobs in Hst.
Qed.

Lemma names_by_type_filter self wanted :
  get_backend_names_by_type self wanted =
  List.filter (has_type self wanted) (list_backends self).
Proof.
  unfold get_backend_names_by_type. by rewrite names_by_type_loop_filter.
Qed.

Lemma names_by_type_elem self wanted n :
  n ∈ get_backend_names_by_type self wanted <->
  n ∈ list_backends self /\ has_type self wanted n = true.
Proof. by rewrite names_by_type_filter, !list_elem_of_In, filter_In. Qed.

(** X8. The lists of two different types share no name, and a list by
    type repeats no name when [list_backends] repeats none. *)
Theorem names_by_type_disjoint (self : M) (t1 t2 : string) :
  (t1 <> t2 -> forall n, n ∈ get_backend_names_by_type self t1 ->
     n ∉ get_backend_names_by_type self t2) /\
  (NoDup (list_backends self) -> NoDup (get_backend_names_by_type self t1)).
Proof.
  split.
  - intros Hne n [_ Hin1]%names_by_type_elem [_ Hin2]%names_by_type_elem.
    unfold has_type in Hin1, Hin2.
    destruct (get_backend self n) as [b|]; [|done].
    apply eq_str_true in Hin1, Hin2. congruence.
  - intros Hnd. rewrite names_by_type_filter.
    apply (sublist_NoDup _ _ Hnd (sublist_List_filter _ _)).
Qed.

(** X9. A record without a key ["type"] is a [local] backend: its name
    is in the list of type ["local"] when [list_backends] has it; and a
    record whose ["type"] is not a string is in the list of no type. *)
Theorem untyped_record_is_local (self : M) (n : string)
  (data : gmap string value) :
  get_config self n = Some data ->
  (data !! "type" = None -> n ∈ list_backends self ->
   n ∈ get_backend_names_by_type self "local") /\
  (forall v t, data !! "type" = Some v -> is_str v = false ->
   n ∉ get_backend_names_by_type self t).
Proof.
  intros Hdata. split.
  - intros Hty Hin. apply names_by_type_elem. split; [done|].
    unfold has_type, get_backend. by rewrite Hdata, Hty.
  - intros v t Hty Hstr [_ Hin]%names_by_type_elem.
    unfold has_type, get_backend in Hin. rewrite Hdata, Hty in Hin.
    simpl in Hin. by destruct v.
Qed.

End more_store_properties.


(** ** The entry point *)

Section more_cli_properties.
Context {C : Codec} `{CM : ConfigManager M} {K : Constants} {R : Rich}.
Variable env : environment.

Ltac observe :=
  cbn [fst snd constructed clients served printed omap list_omap length
       sc_provider sc_host sc_port sc_username sc_password sc_ssl_cert
       sc_ssl_key sc_verbose sc_server_name] in *.

Ltac members :=
  repeat match goal with
    | H : _ ∈ [] |- _ => by apply elem_of_nil in H
    | H : _ ∈ [_] |- _ => apply list_elem_of_singleton in H; subst
    end.

Ltac stored_fields Hall Hr :=
  rewrite ?(get_all_inv _ _ Hall), ?default_revealed_None,
    ?default_revealed_other in Hr by done;
  repeat match type of Hr with
    | context [default ?d (_config ?bc !! ?k)] =>
        change (default d (_config bc !! k)) with (field bc k d) in Hr
    end.

Ltac enter Hall Hr :=
  unfold _start_from_config in Hr; rewrite Hall in Hr;
  do 3 step Hr; stored_fields Hall Hr.

(** The end of a run that was followed to its last event. *)
Ltac leaf :=
  unfold orderly; observe;
  repeat match goal with |- _ /\ _ => split end;
  try lia; try done;
  try match goal with
    | |- _ \/ _ =>
        first
          [ by left
          | by right; left
          | right; right;
            match goal with
            | Hs : suspect ?t = true, Hm : markup_error ?t = Some ?m |- _ =>
                by exists t, m
            end ]
    end;
  try (intros; members; observe;
       repeat match goal with |- _ /\ _ => split end;
       try done; try congruence;
       match goal with
       | H : serve env ?c = _ |- context [serve env ?c] => by rewrite H
       end).


Lemma prints_only {A} (f : A -> list part) (l : list A) :
  let t := map (fun x => ConsolePrint (f x)) l in
  constructed t = [] /\ clients t = [] /\ served t = [].
Proof. induction l as [|x l IH]; [done|]. apply IH. Qed.

Lemma orderly_same r r' host port u p cert key verbose :
  constructed r'.1 = constructed r.1 -> clients r'.1 = clients r.1 ->
  served r'.1 = served r.1 -> r'.2 = r.2 ->
  orderly env r host port u p cert key verbose ->
  orderly env r' host port u p cert key verbose.
Proof. unfold orderly. by intros -> -> -> ->. Qed.

Lemma start_from_type_orderly self btype path host port u p readonly ttl mfs ws
  cert key verbose :
  orderly env (_start_from_type env self btype path host port u p readonly ttl
                 mfs ws cert key verbose) host port u p cert key verbose.
Proof.
  remember (_start_from_type _ _ _ _ _ _ _ _ _ _ _ _ _ _ _) as r eqn:Hr.
  unfold _start_from_type in Hr.
  destruct (String.eqb (lower btype) "local") eqn:Hlocal.
  { apply String.eqb_eq in Hlocal.
    pose proof (plain_of_lower _ _ Hlocal eq_refl) as Hplain.
    exec Hr; subst r; leaf. }
  destruct (String.eqb (lower btype) "drime") eqn:Hdrime.
  { apply String.eqb_eq in Hdrime.
    pose proof (plain_of_lower _ _ Hdrime eq_refl) as Hplain.
    exec Hr; subst r; leaf. }
  destruct (prints_only (fun x => [Lit "  - "; FmtName x])
              (list_backends self)) as (Hc & Hk & Hs).
  exec Hr; subst r; try (by leaf).
  apply (orderly_same ([], SysExit 1)); observe;
    rewrite ?app_nil_r; try done.
  by leaf.
Qed.

Lemma start_from_config_orderly bc host port u p cert key verbose config :
  get_all bc = Return config ->
  orderly env (_start_from_config env bc host port u p cert key verbose)
    host port u p cert key verbose.
Proof.
  intros Hall.
  remember (_start_from_config _ _ _ _ _ _ _ _ _) as r eqn:Hr.
  enter Hall Hr.
  destruct (eq_str (backend_type bc) "local") eqn:Hlocal.
  { apply eq_str_true in Hlocal. rewrite Hlocal in Hr.
    exec Hr; subst r; leaf. }
  destruct (eq_str (backend_type bc) "drime") eqn:Hdrime.
  { apply eq_str_true in Hdrime. rewrite Hdrime in Hr.
    change (eq_str (VStr "drime") "local") with false in Hr.
    exec Hr; subst r; leaf. }
  exec Hr; subst r; leaf.
Qed.

Lemma eq_str_false v s : v <> VStr s -> eq_str v s = false.
Proof.
  destruct v as [| | | |s']; try done. simpl. intros Hne.
  apply String.eqb_neq. congruence.
Qed.

Lemma auth_resolved no_auth u p u' p' :
  (handle_authentication_flags no_auth u p).2 = Done (u', p') ->
  opt_truthy u' = opt_truthy p' /\
  (no_auth = true -> u' = None /\ p' = None) /\
  (no_auth = false -> opt_truthy u = true -> opt_truthy p = true ->
   u' = u /\ p' = p /\ (handle_authentication_flags no_auth u p).1 = []).
Proof.
  rewrite auth_eq.
  destruct no_auth; [by intros [= <- <-]|].
  destruct (opt_truthy u) eqn:Hu, (opt_truthy p) eqn:Hp; simpl;
    intros [= <- <-]; by rewrite ?Hu, ?Hp.
Qed.

(** How [cli] goes on once it serves: either [get_all] raises on the
    record found, or the run is orderly. *)
Lemma cli_orderly self ctx u p :
  invoked_subcommand ctx = None ->
  (handle_authentication_flags (no_auth ctx) (username ctx) (password ctx)).2
    = Done (u, p) ->
  let r := cli env self ctx in
  (exists bc e, get_backend self (default "local" (backend ctx)) = Some bc /\
     get_all bc = Raise e /\ r.2 = Raised e /\
     constructed r.1 = [] /\ clients r.1 = [] /\ served r.1 = []) \/
  orderly env r (host ctx) (port ctx) u p (ssl_cert ctx) (ssl_key ctx)
    (verbose ctx).
Proof.
  intros Hsub Hauth r. subst r.
  destruct (get_backend self (default "local" (backend ctx))) as [bc|] eqn:Hget.
  - rewrite (cli_named env self ctx bc u p Hsub Hauth Hget).
    destruct (get_all bc) as [config|e] eqn:Hall.
    + right. eapply orderly_same;
        [..|apply (start_from_config_orderly bc _ _ _ _ _ _ _ config Hall)];
        cbn [fst snd];
        rewrite ?constructed_after_auth, ?clients_after_auth,
          ?served_after_auth; done.
    + left. exists bc, e. rewrite (start_from_config_raises _ _ _ _ _ _ _ _ _ _ Hall).
      cbn [fst snd].
      rewrite constructed_after_auth, clients_after_auth, served_after_auth.
      done.
  - rewrite (cli_legacy env self ctx u p Hsub Hauth Hget).
    right. eapply orderly_same; [..|apply start_from_type_orderly];
      cbn [fst snd];
      rewrite ?constructed_after_auth, ?clients_after_auth,
        ?served_after_auth; done.
Qed.



(** X12. The credentials the server is called with are both non-empty or
    both empty or absent, never one without the other; with [no_auth]
    they are both absent; and a complete pair given without [no_auth]
    reaches the server as it was given. *)
Theorem served_credentials_are_paired (self : M) (ctx : invocation) :
  forall sc, sc ∈ served (cli env self ctx).1 ->
    opt_truthy (sc_username sc) = opt_truthy (sc_password sc) /\
    (no_auth ctx = true -> sc_username sc = None /\ sc_password sc = None) /\
    (no_auth ctx = false -> opt_truthy (username ctx) = true ->
     opt_truthy (password ctx) = true ->
     sc_username sc = username ctx /\ sc_password sc = password ctx).
Proof.
  intros sc Hin.
  destruct (invoked_subcommand ctx) as [sub|] eqn:Hsub.
  { unfold cli in Hin. rewrite Hsub in Hin. by apply elem_of_nil in Hin. }
  destruct (auth_ends_Done (no_auth ctx) (username ctx) (password ctx))
    as [[u p] Hauth].
  destruct (auth_resolved _ _ _ _ _ Hauth) as (Hpair & Hno & Hboth).
  destruct (cli_orderly self ctx u p Hsub Hauth)
    as [(bc & e & _ & _ & _ & _ & _ & Hs)|Hord].
  { rewrite Hs in Hin. by apply elem_of_nil in Hin. }
  destruct Hord as (_ & _ & _ & _ & _ & _ & Hsc).
  destruct (Hsc sc Hin) as (_ & _ & _ & _ & -> & -> & _).
  split; [done|]. split; [done|].
  intros Hf Hu Hp. by destruct (Hboth Hf Hu Hp) as (-> & -> & _).
Qed.


(** X14. On the legacy path with type ["drime"], when [pydrime] imports,
    [DRIME_API_KEY] is a non-empty string, the constructors raise nothing
    and neither the host nor the user name holds a closing tag, the
    server is called once with a provider made of a client for that key
    and of the [--workspace-id], [--readonly], [--cache-ttl] and
    [--max-file-size] of the command line. *)
Theorem legacy_drime_uses_flags (self : M) (ctx : invocation)
  (k : string) (u p : option string) :
  let b := default "local" (backend ctx) in
  let P := DrimeDAVProvider (DrimeClient (VStr k)) (VInt (workspace_id ctx))
             (VBool (readonly ctx)) (VFloat (cache_ttl ctx))
             (VInt (max_file_size ctx)) in
  invoked_subcommand ctx = None ->
  get_backend self b = None -> lower b = "drime" ->
  (handle_authentication_flags (no_auth ctx) (username ctx) (password ctx)).2
    = Done (u, p) ->
  import_pydrime env = None ->
  environ env !! "DRIME_API_KEY" = Some k -> k <> "" ->
  init_client env (DrimeClient (VStr k)) = None ->
  init_provider env P = None ->
  plain (host ctx) -> plain_opt (username ctx) ->
  let r := cli env self ctx in
  clients r.1 = [DrimeClient (VStr k)] /\ constructed r.1 = [P] /\
  served r.1 =
    [mkServerCall P (host ctx) (port ctx) u p (verbose ctx + 1) (ssl_cert ctx)
       (ssl_key ctx)
       [Lit "PyWebDAV Server (Drime: workspace "; Fmt (VInt (workspace_id ctx));
        Lit ")"]].
Proof.
  intros b P Hsub Hget Hlower Hauth Himport Hkey Hne Hclient Hinit Hhost
    Huser r.
  subst r.
  rewrite (cli_legacy env self ctx u p Hsub Hauth Hget). cbn [fst snd].
  rewrite constructed_after_auth, clients_after_auth, served_after_auth.
  fold b.
  pose proof (auth_plain _ _ _ _ _ Hauth Huser) as Hu.
  pose proof (plain_of_lower _ _ Hlower eq_refl) as Hplain.
  assert (Htruthy : opt_truthy (Some k) = true).
  { unfold opt_truthy. simpl. by apply negb_true_iff, String.eqb_neq. }
  remember (_start_from_type _ _ _ _ _ _ _ _ _ _ _ _ _ _ _) as r eqn:Hr.
  unfold _start_from_type in Hr. rewrite Hlower in Hr.
  change (("drime" =? "local")%string) with false in Hr.
  change (("drime" =? "drime")%string) with true in Hr.
  rewrite Hkey in Hr. cbn [of_opt] in Hr. subst P. unfold plain in Hhost.
  destruct u as [s|]; cbn [plain_opt] in Hu; unfold plain in Hu;
    exec Hr; by subst r.
Qed.

(** X15. The type of a stored record is compared as it is written: a
    record whose type is anything but the string ["local"] or the string
    ["drime"], other letter case included, and holds no closing tag, ends
    the program with exit code 1 after the line that names the unknown
    type; whatever the type holds, no provider is constructed, no client
    is created and the server is not called. *)
Theorem stored_type_is_matched_exactly (self : M) (ctx : invocation)
  (bc : BackendConfig) (config : gmap string value) :
  let b := default "local" (backend ctx) in
  let auth :=
    handle_authentication_flags (no_auth ctx) (username ctx) (password ctx) in
  invoked_subcommand ctx = None ->
  get_backend self b = Some bc -> get_all bc = Return config ->
  backend_type bc <> VStr "local" -> backend_type bc <> VStr "drime" ->
  let r := cli env self ctx in
  (constructed r.1 = [] /\ clients r.1 = [] /\ served r.1 = []) /\
  (plain_value (backend_type bc) ->
   r = (auth.1 ++
        [ConsolePrint [Lit "[blue]Loading backend '"; FmtName b;
                       Lit "' from config...[/blue]"];
         ConsolePrint [Lit "[red]Error: Unknown backend type '";
                       Fmt (backend_type bc); Lit "'[/red]"]],
        SysExit 1)).
Proof.
  intros b auth Hsub Hget Hall Hlocal Hdrime r. subst r.
  destruct (auth_ends_Done (no_auth ctx) (username ctx) (password ctx))
    as [[u p] Hauth].
  rewrite (cli_named env self ctx bc u p Hsub Hauth Hget). cbn [fst snd].
  rewrite constructed_after_auth, clients_after_auth, served_after_auth.
  change (constructed (ConsolePrint ?x :: ?t)) with (constructed t).
  change (clients (ConsolePrint ?x :: ?t)) with (clients t).
  change (served (ConsolePrint ?x :: ?t)) with (served t).
  destruct (start_from_config_other env bc (host ctx) (port ctx) u p
              (ssl_cert ctx) (ssl_key ctx) (verbose ctx) config
              (eq_str_false _ _ Hlocal) (eq_str_false _ _ Hdrime) Hall)
    as (Hc & Hk & Hs & Hrun).
  cbv zeta in Hc, Hk, Hs, Hrun. split; [done|].
  intros Hty. by rewrite (Hrun Hty).
Qed.

(** X16. A stored [drime] record whose API key is missing, empty or
    otherwise false ends the program with exit code 1, after a line that
    names the record to reconfigure; no client is created. *)
Theorem stored_drime_needs_api_key (self : M) (ctx : invocation)
  (bc : BackendConfig) (config : gmap string value) :
  let b := default "local" (backend ctx) in
  let auth :=
    handle_authentication_flags (no_auth ctx) (username ctx) (password ctx) in
  invoked_subcommand ctx = None ->
  get_backend self b = Some bc -> get_all bc = Return config ->
  backend_type bc = VStr "drime" -> import_pydrime env = None ->
  truthy (revealed "api_key" (field bc "api_key" VNone)) = false ->
  cli env self ctx =
    (auth.1 ++
     [ConsolePrint [Lit "[blue]Loading backend '"; FmtName b;
                    Lit "' from config...[/blue]"];
      ConsolePrint [Lit "[red]Error: Drime backend requires api_key in config.[/red]\nReconfigure with: pywebdavserver config add ";
                    FmtName (name bc)]],
     SysExit 1).
Proof.
  intros b auth Hsub Hget Hall Hty Himport Hkey.
  destruct (auth_ends_Done (no_auth ctx) (username ctx) (password ctx))
    as [[u p] Hauth].
  rewrite (cli_named env self ctx bc u p Hsub Hauth Hget).
  remember (_start_from_config _ _ _ _ _ _ _ _ _) as r eqn:Hr.
  enter Hall Hr. rewrite Hty in Hr.
  change (eq_str (VStr "drime") "local") with false in Hr.
  change (eq_str (VStr "drime") "drime") with true in Hr.
  exec Hr. by subst r.
Qed.

(** X17. On the legacy path the type is read without regard to letter
    case: when neither the type nor the path holds a closing tag, two
    spellings with the same lower-case form create the same clients,
    construct the same providers, call the server alike and end alike. *)
Theorem legacy_type_ignores_case (self : M) (b1 b2 path host : string)
  (port : Z) (u p : option string) (readonly : bool) (ttl : float)
  (mfs ws : Z) (cert key : option string) (verbose : Z) :
  lower b1 = lower b2 -> plain b1 -> plain path ->
  let r1 := _start_from_type env self b1 path host port u p readonly ttl mfs
              ws cert key verbose in
  let r2 := _start_from_type env self b2 path host port u p readonly ttl mfs
              ws cert key verbose in
  clients r1.1 = clients r2.1 /\ constructed r1.1 = constructed r2.1 /\
  served r1.1 = served r2.1 /\ r1.2 = r2.2.
Proof.
  intros Hlower Hb1 Hpath r1 r2. unfold plain in Hb1, Hpath.
  assert (Hb2 : has_closing_tag b2 = false).
  { by rewrite <- has_closing_tag_lower, <- Hlower, has_closing_tag_lower. }
  remember r1 as r1' eqn:Hr1. remember r2 as r2' eqn:Hr2. subst r1 r2.
  unfold _start_from_type in Hr1, Hr2. rewrite Hlower in Hr1.
  destruct (String.eqb (lower b2) "local").
  { exec Hr1; exec Hr2; by subst r1' r2'. }
  destruct (String.eqb (lower b2) "drime").
  { exec Hr1; exec Hr2; by subst r1' r2'. }
  exec Hr1; exec Hr2; by subst r1' r2'.
Qed.

End more_cli_properties.

(** ** The further properties on concrete inputs *)

Lemma get_agrees_with_get_all_witness :
  get_all (C:=tag_codec) drime_record = Return drime_record_revealed /\
  get (C:=tag_codec) drime_record "api_key" (VStr "unused") =
    Return (VStr "k3y").
Proof.
  assert (Hall : get_all (C:=tag_codec) drime_record =
                 Return drime_record_revealed).
  { vm_compute. reflexivity. }
  split; [exact Hall|].
  apply (get_agrees_with_get_all (C:=tag_codec) drime_record
           drime_record_revealed "api_key" (VStr "k3y") (VStr "unused") Hall).
  reflexivity.
Defined.

Lemma get_all_raises_unexpected_witness :
  exists e, get_all (C:=failing_codec) drime_record = Raise e /\
            exc_cls e <> ValueError.
Proof.
  apply (proj2 (get_all_raises_unexpected (C:=failing_codec) drime_record)
           "api_key" "enc:k3y" (Exc OtherException "codec unavailable")
           eq_refl api_key_sensitive eq_refl).
  discriminate.
Defined.

Lemma get_all_same_keys_witness :
  dom drime_record_revealed = dom (_config drime_record) /\
  (forall v', drime_record_revealed !! "api_key" = Some v' -> is_str v' = true).
Proof.
  assert (Hall : get_all (C:=tag_codec) drime_record =
                 Return drime_record_revealed).
  { vm_compute. reflexivity. }
  destruct (get_all_same_keys (C:=tag_codec) drime_record
              drime_record_revealed Hall) as [Hdom Hstr].
  split; [exact Hdom|].
  intros v' Hv'. apply (Hstr "api_key" (VStr "enc:k3y") v' eq_refl Hv').
Defined.

Lemma add_then_get_backend_witness :
  let config : gmap string value :=
    <[ "type" := VStr "local" ]> {[ "path" := VStr "/srv/files" ]} in
  exists m b,
    add_backend (C:=tag_codec) (CM:=alist_manager) [] "files" "drime" config
      false = Return m /\
    get_backend (CM:=alist_manager) m "files" = Some b /\
    backend_type b = VStr "local" /\ _config b !! "type" = None /\
    _config b = delete "type" config.
Proof.
  intros config.
  pose (m := [("files", config)] : alist_store).
  assert (Hadd : add_backend (C:=tag_codec) (CM:=alist_manager) [] "files"
                   "drime" config false = Return m).
  { vm_compute. reflexivity. }
  destruct (add_then_get_backend (C:=tag_codec) (CM:=alist_manager)
              (ConfigManagerLaws0:=alist_manager_laws) [] m "files" "drime"
              config false Hadd)
    as (b & Hb & _ & Hty & Hnone & _ & Hplain).
  exists m, b. split; [exact Hadd|]. split; [exact Hb|].
  split; [exact Hty|]. split; [exact Hnone|]. exact (Hplain eq_refl).
Defined.

Lemma secret_round_trip_witness :
  let config : gmap string value := {[ "api_key" := VStr "s3cret" ]} in
  exists m b,
    add_backend (C:=tag_codec) (CM:=alist_manager) [] "work" "drime" config
      true = Return m /\
    get_backend (CM:=alist_manager) m "work" = Some b /\
    _config b !! "api_key" = Some (VStr "enc:s3cret") /\
    get (C:=tag_codec) b "api_key" VNone = Return (VStr "s3cret").
Proof.
  intros config.
  pose (m := [("work", <[ "api_key" := VStr "enc:s3cret" ]>
                         (<[ "type" := VStr "drime" ]> config))]
             : alist_store).
  assert (Hadd : add_backend (C:=tag_codec) (CM:=alist_manager) [] "work"
                   "drime" config true = Return m).
  { vm_compute. reflexivity. }
  destruct (secret_round_trip (C:=tag_codec) (CM:=alist_manager)
              (ConfigManagerLaws0:=alist_manager_laws) [] m "work" "drime"
              config tag_round_trip Hadd) as (b & Hb & Hget).
  exists m, b. split; [exact Hadd|]. split; [exact Hb|]. split.
  - assert (Hb' : get_backend (CM:=alist_manager) m "work" =
                  Some (mkBackendConfig "work" (VStr "drime")
                          {[ "api_key" := VStr "enc:s3cret" ]})).
    { vm_compute. reflexivity. }
    rewrite Hb' in Hb. injection Hb as <-. reflexivity.
  - exact (Hget "api_key" "s3cret" VNone api_key_sensitive eq_refl eq_refl).
Defined.

Lemma add_backend_raises_from_obscure_witness :
  let config : gmap string value := {[ "password" := VStr "" ]} in
  exists e,
    add_backend_record (C:=tag_codec) "local" config true = Raise e /\
    add_backend (C:=tag_codec) (CM:=alist_manager) abc_store "empty" "local"
      config true = Raise e.
Proof.
  intros config.
  destruct (proj2 (add_backend_raises_from_obscure (C:=tag_codec)
                     (CM:=alist_manager) "local" config)
              "password" "" (Exc ValueError "empty") password_sensitive
              eq_refl eq_refl eq_refl) as (e & He & Hadd).
  exists e. split; [exact He|apply Hadd].
Defined.

Lemma resave_keeps_or_encodes_again_witness :
  let config : gmap string value := {[ "api_key" := VStr "s3cret" ]} in
  let fc : gmap string value :=
    <[ "api_key" := VStr "enc:s3cret" ]> (<[ "type" := VStr "drime" ]> config) in
  (add_backend_record (C:=tag_codec) "drime" config true = Return fc /\
   add_backend_record (C:=tag_codec) "local" fc true = Return fc) /\
  (add_backend_record (C:=unmarked_codec) "drime" config true = Return fc /\
   exists fc',
     add_backend_record (C:=unmarked_codec) "local" fc true = Return fc' /\
     fc' !! "api_key" = Some (VStr "enc:enc:s3cret")).
Proof.
  intros config fc. split.
  - assert (Hfc : add_backend_record (C:=tag_codec) "drime" config true =
                  Return fc).
    { vm_compute. reflexivity. }
    split; [exact Hfc|].
    apply (proj1 (resave_keeps_or_encodes_again (C:=tag_codec) "drime"
                    "local" config fc Hfc)).
    intros key s Hkey. unfold sensitive_keys in Hkey.
    rewrite !elem_of_cons, elem_of_nil in Hkey.
    destruct Hkey as [->|[->|[->|[]]]]; vm_compute; intros [= <-];
      reflexivity.
  - assert (Hfc : add_backend_record (C:=unmarked_codec) "drime" config true
                  = Return fc).
    { vm_compute. reflexivity. }
    split; [exact Hfc|].
    pose (fc' := <[ "api_key" := VStr "enc:enc:s3cret" ]> fc).
    assert (Hagain : add_backend_record (C:=unmarked_codec) "local" fc true
                     = Return fc').
    { vm_compute. reflexivity. }
    exists fc'. split; [exact Hagain|].
    destruct (proj2 (resave_keeps_or_encodes_again (C:=unmarked_codec)
                       "drime" "local" config fc Hfc)
                "api_key" "enc:s3cret" fc' api_key_sensitive eq_refl eq_refl
                Hagain) as (t & Ht & Hstored).
    vm_compute in Ht. injection Ht as <-. exact Hstored.
Defined.

Lemma names_by_type_disjoint_witness :
  ("a" ∉ get_backend_names_by_type (CM:=alist_manager) abc_store "drime") /\
  NoDup (get_backend_names_by_type (CM:=alist_manager) abc_store "local").
Proof.
  destruct (names_by_type_disjoint (CM:=alist_manager) abc_store
              "local" "drime") as [Hdisj Hnodup].
  split.
  - apply Hdisj; [discriminate|].
    apply (bool_decide_unpack _). vm_compute. exact I.
  - apply Hnodup. apply (bool_decide_unpack _). vm_compute. exact I.
Defined.

Lemma untyped_record_is_local_witness :
  ("untyped" ∈ get_backend_names_by_type (CM:=alist_manager) odd_store "local")
  /\ ("numbered" ∉ get_backend_names_by_type (CM:=alist_manager) odd_store "1").
Proof.
  split.
  - apply (proj1 (untyped_record_is_local (CM:=alist_manager) odd_store
                    "untyped" {[ "path" := VStr "/srv/files" ]} eq_refl));
      [reflexivity|].
    apply (bool_decide_unpack _). vm_compute. exact I.
  - apply (proj2 (untyped_record_is_local (CM:=alist_manager) odd_store
                    "numbered" {[ "type" := VInt 1 ]} eq_refl)
             (VInt 1) "1"); reflexivity.
Defined.


Lemma served_credentials_are_paired_witness :
  let ctx := set_credentials (Some "alice") (Some "pw") plain_invocation in
  let r := cli (C:=tag_codec) (CM:=alist_manager) (K:=test_constants)
             (R:=lenient_rich) (quiet_env ∅) abc_store ctx in
  length (served r.1) = 1%nat /\
  Forall (fun sc => sc_username sc = Some "alice" /\
                    sc_password sc = Some "pw") (served r.1).
Proof.
  intros ctx r. split; [reflexivity|].
  apply Forall_forall. intros sc Hin.
  destruct (served_credentials_are_paired (C:=tag_codec) (CM:=alist_manager)
              (K:=test_constants) (R:=lenient_rich) (quiet_env ∅) abc_store
              ctx sc Hin)
    as (_ & _ & Hboth).
  exact (Hboth eq_refl eq_refl eq_refl).
Defined.


Lemma legacy_drime_uses_flags_witness :
  let env := quiet_env {[ "DRIME_API_KEY" := "k3y" ]} in
  let r := cli (C:=tag_codec) (CM:=alist_manager) (K:=test_constants)
             (R:=lenient_rich) env []
             (set_backend (Some "Drime") plain_invocation) in
  clients r.1 = [DrimeClient (VStr "k3y")] /\
  constructed r.1 =
    [DrimeDAVProvider (DrimeClient (VStr "k3y")) (VInt 0) (VBool false)
       (VFloat 30%float) (VInt 524288000)].
Proof.
  intros env r.
  destruct (legacy_drime_uses_flags (C:=tag_codec) (CM:=alist_manager)
              (K:=test_constants) (R:=lenient_rich) env []
              (set_backend (Some "Drime") plain_invocation) "k3y" None None
              eq_refl eq_refl eq_refl eq_refl eq_refl eq_refl)
    as (Hk & Hc & _);
    [discriminate|reflexivity|reflexivity|reflexivity|exact I|].
  split; [exact Hk|exact Hc].
Defined.

Lemma stored_type_is_matched_exactly_witness :
  cli (C:=tag_codec) (CM:=alist_manager) (K:=test_constants)
    (R:=lenient_rich) (quiet_env ∅) odd_store
    (set_backend (Some "shouting") plain_invocation) =
  ([ConsolePrint [Lit "[blue]Loading backend '"; FmtName "shouting";
                  Lit "' from config...[/blue]"];
    ConsolePrint [Lit "[red]Error: Unknown backend type '";
                  Fmt (VStr "LOCAL"); Lit "'[/red]"]],
   SysExit 1).
Proof.
  destruct (stored_type_is_matched_exactly (C:=tag_codec)
              (CM:=alist_manager) (K:=test_constants) (R:=lenient_rich)
              (quiet_env ∅) odd_store
              (set_backend (Some "shouting") plain_invocation)
              (mkBackendConfig "shouting" (VStr "LOCAL") ∅) ∅)
    as [_ Hrun];
    [reflexivity|vm_compute; reflexivity|vm_compute; reflexivity|
     discriminate|discriminate|].
  exact (Hrun eq_refl).
Defined.

Lemma stored_drime_needs_api_key_witness :
  cli (C:=tag_codec) (CM:=alist_manager) (K:=test_constants)
    (R:=lenient_rich) (quiet_env ∅) odd_store
    (set_backend (Some "keyless") plain_invocation) =
  ([ConsolePrint [Lit "[blue]Loading backend '"; FmtName "keyless";
                  Lit "' from config...[/blue]"];
    ConsolePrint [Lit "[red]Error: Drime backend requires api_key in config.[/red]\nReconfigure with: pywebdavserver config add ";
                  FmtName "keyless"]],
   SysExit 1).
Proof.
  apply (stored_drime_needs_api_key (C:=tag_codec) (CM:=alist_manager)
           (K:=test_constants) (R:=lenient_rich) (quiet_env ∅) odd_store
           (set_backend (Some "keyless") plain_invocation)
           (mkBackendConfig "keyless" (VStr "drime") ∅) ∅);
    [reflexivity|vm_compute; reflexivity|vm_compute; reflexivity|
     reflexivity|reflexivity|reflexivity].
Defined.

Lemma legacy_type_ignores_case_witness :
  let run b :=
    _start_from_type (CM:=alist_manager) (R:=lenient_rich) (quiet_env ∅)
      abc_store b
      "/tmp/webdav" "127.0.0.1" 8080 None None false 30%float 524288000 0
      None None 0 in
  constructed (run "LOCAL").1 = constructed (run "local").1 /\
  served (run "LOCAL").1 = served (run "local").1 /\
  (run "LOCAL").2 = (run "local").2.
Proof.
  intros run.
  destruct (legacy_type_ignores_case (CM:=alist_manager) (R:=lenient_rich)
              (quiet_env ∅) abc_store "LOCAL" "local" "/tmp/webdav"
              "127.0.0.1" 8080 None None false 30%float 524288000 0 None None
              0 eq_refl eq_refl eq_refl)
    as (_ & Hc & Hs & He).
  split; [exact Hc|]. split; [exact Hs|exact He].
Defined.
